(** * go-rancher-metadata: the metadata client of [metadata/metadata.go]

    A shallow embedding of the client: the HTTP exchange of [SendRequest],
    the typed accessors built on it, the linear scans of the resolution
    cascade, and the version-polling loop.

    Go values are modelled as follows.
    - [string] is a byte sequence: Rocq's [string]; [==] is [String.eqb].
    - [error] is an interface value that is either nil or carries a message:
      [option error], with [None] for nil.
    - a slice [[]T] is either nil or a sequence: [slice T = option (list T)],
      with [None] for the nil slice and [Some []] for the empty, non-nil one.
    - a call that dereferences a nil pointer panics: [Panics].
    - the metadata service answers differently over time: every exchange
      threads a world [W] (state passing). *)

From Stdlib Require Import List String Ascii ZArith Bool Lia DecimalString.
Import ListNotations.
Open Scope string_scope.

Set Implicit Arguments.

(** ** Go values *)

(** The [error] interface: a non-nil error is known by its message. *)
Record error := mkError { Error : string }.

(** A slice: [None] is the nil slice. *)
Definition slice (A : Type) : Type := option (list A).

(** The elements a [for ... range] loop visits. *)
Definition elems {A : Type} (s : slice A) : list A :=
  match s with
  | Some l => l
  | None => []
  end.

(** [append(s, x)]: a nil slice grows into a non-nil one. *)
Definition append1 {A : Type} (s : slice A) (x : A) : slice A :=
  Some (elems s ++ [x])%list.

(** [append(s, xs...)]: appending nothing hands [s] back unchanged. *)
Definition appendAll {A : Type} (s : slice A) (xs : list A) : slice A :=
  match xs with
  | [] => s
  | _ :: _ => Some (elems s ++ xs)%list
  end.

(** [[]byte]. *)
Definition ByteSlice : Type := slice ascii.

(** [string(b[:])]. *)
Definition string_of_bytes (b : ByteSlice) : string :=
  string_of_list_ascii (elems b).

(** ** The [strings] and [fmt] functions the client calls *)

Definition quote : string := String "034"%char EmptyString.

(** [strings.HasPrefix]: [len(s) >= len(prefix) && s[0:len(prefix)] == prefix]. *)
Definition HasPrefix (s prefix : string) : bool :=
  (String.length prefix <=? String.length s)%nat
  && (substring 0 (String.length prefix) s =? prefix).

(** [strings.HasSuffix]:
    [len(s) >= len(suffix) && s[len(s)-len(suffix):] == suffix]. *)
Definition HasSuffix (s suffix : string) : bool :=
  (String.length suffix <=? String.length s)%nat
  && (substring (String.length s - String.length suffix)
                (String.length suffix) s =? suffix).

(** [strings.TrimPrefix]. *)
Definition TrimPrefix (s prefix : string) : string :=
  if HasPrefix s prefix
  then substring (String.length prefix)
                 (String.length s - String.length prefix) s
  else s.

(** [strings.TrimSuffix]. *)
Definition TrimSuffix (s suffix : string) : string :=
  if HasSuffix s suffix
  then substring 0 (String.length s - String.length suffix) s
  else s.

(** The [%v] verb on an [int]: its decimal digits. *)
Definition fmt_int (n : Z) : string := NilZero.string_of_int (Z.to_int n).

(** [strings.Contains]. *)
Definition Contains (s sub : string) : Prop :=
  exists pre post, s = pre ++ sub ++ post.

(** ** [net/http] *)

Record Request := mkRequest {
  Method : string;
  URL : string;
  Header : list (string * string)
}.

(** [req.Header.Add(key, value)]. *)
Definition Header_Add (req : Request) (key value : string) : Request :=
  {| Method := Method req;
     URL := URL req;
     Header := (Header req ++ [(key, value)])%list |}.

(** A response body: what [ioutil.ReadAll] will read from it, and the error
    it will stop with, if any. *)
Record Reader := mkReader {
  content : list ascii;
  failure : option error
}.

(** [ioutil.ReadAll]. *)
Definition ReadAll (r : Reader) : ByteSlice * option error :=
  (Some (content r), failure r).

Record Response := mkResponse {
  StatusCode : Z;
  Body : Reader
}.

(** ** Outcomes and the world-passing monad *)

Inductive outcome (A : Type) : Type :=
| Returns (a : A)
| Panics.
Arguments Returns {A} a.
Arguments Panics {A}.

Definition M (W A : Type) : Type := W -> outcome A * W.

Definition ret {W A : Type} (a : A) : M W A := fun w => (Returns a, w).

Definition panic {W A : Type} : M W A := fun w => (Panics, w).

Definition bind {W A B : Type} (c : M W A) (k : A -> M W B) : M W B :=
  fun w =>
    match c w with
    | (Returns a, w') => k a w'
    | (Panics, w') => (Panics, w')
    end.

Notation "x <- c ;; k" := (bind c (fun x => k))
  (at level 61, c at next level, right associativity).
Notation "' p <- c ;; k" := (bind c (fun x => match x with p => k end))
  (at level 61, p pattern, c at next level, right associativity).

(** [http.Client]: [Do] performs one exchange with the service. The 10 second
    timeout of [newClient] shows as an error of [Do]. *)
Record HttpClient (W : Type) := mkHttpClient {
  Do : Request -> W -> (Response + error) * W
}.

(** The [client] struct. *)
Record client (W : Type) := mkClient {
  url : string;
  ip : string;
  httpClient : HttpClient W
}.

(** [encoding/json]: [json.Unmarshal(data, &v)] writes into [v] and returns an
    error; [v] may have been written to even when the error is non-nil. *)
Class Unmarshaler (T : Type) := Unmarshal : ByteSlice -> T -> T * option error.

(** ** The entities

    The entity structs are declared outside [metadata.go]; the accessors
    read the fields below and treat everything else as payload. *)

(** Modelled from the spec: the struct [Service] (its declaration is not in
    [metadata.go]). Key attributes: name, stack name. [Attrs] stands for the
    attributes the accessors never read. *)
Module Service.
Record t := mk {
  Name : string;
  StackName : string;
  Attrs : list (string * string)
}.
(** The zero value of [var service Service]. *)
Definition zero : t := mk "" "" [].
End Service.

(** Modelled from the spec: the struct [Environment] (its declaration is not
    in [metadata.go]): a name, a region name and an ordered sequence of
    services. *)
Module Environment.
Record t := mk {
  Name : string;
  RegionName : string;
  Services : slice Service.t
}.
End Environment.

(** Modelled from the spec: the struct [Container] (its declaration is not in
    [metadata.go]): a name, a service name and a stack name. *)
Module Container.
Record t := mk {
  Name : string;
  ServiceName : string;
  StackName : string;
  Attrs : list (string * string)
}.
End Container.

(** Modelled from the spec: the struct [Host] (its declaration is not in
    [metadata.go]): a UUID and a name. *)
Module Host.
Record t := mk {
  UUID : string;
  Name : string;
  Attrs : list (string * string)
}.
(** The zero value of [var host Host]. *)
Definition zero : t := mk "" "" [].
End Host.

(** Modelled from the spec: the struct [Stack] (its declaration is not in
    [metadata.go]): a name. *)
Module Stack.
Record t := mk {
  Name : string;
  Attrs : list (string * string)
}.
End Stack.

(** Modelled from the spec: the struct [Network] (its declaration is not in
    [metadata.go]): a name. *)
Module Network.
Record t := mk {
  Name : string;
  Attrs : list (string * string)
}.
End Network.

Section Client.

Context {W : Type}.

(** [url.Parse] inside [http.NewRequest]: the error for a raw URL that does
    not parse, nil otherwise. *)
Variable url_Parse : string -> option error.

(** [http.NewRequest(method, url, nil)] for the method [GET]: a nil request
    and an error, or a request with an empty header and a nil error. *)
Definition NewRequest (method rawurl : string) : option Request * option error :=
  match url_Parse rawurl with
  | Some err => (None, Some err)
  | None => (Some (mkRequest method rawurl []), None)
  end.

(** [SendRequest] (metadata.go:74-95). The error of [NewRequest] is
    overwritten by that of [Do] without a test; [req.Header.Add] on the nil
    request of a failed construction panics. The deferred
    [resp.Body.Close()] has no effect on the result and is left out. *)
Definition SendRequest (m : client W) (path : string)
  : M W (ByteSlice * option error) :=
  let '(req, _) := NewRequest "GET" (url m ++ path) in
  match req with
  | None => panic
  | Some req =>
    let req := Header_Add req "Accept" "application/json" in
    let req := if ip m =? "" then req
               else Header_Add req "X-Forwarded-For" (ip m) in
    fun w =>
      match Do (httpClient m) req w with
      | (inr err, w') => (Returns (None, Some err), w')
      | (inl resp, w') =>
        if negb (StatusCode resp =? 200)%Z
        then (Returns (None,
                Some (mkError ("Error " ++ fmt_int (StatusCode resp)
                               ++ " accessing " ++ path ++ " path"))), w')
        else
          let '(body, err) := ReadAll (Body resp) in
          match err with
          | Some e => (Returns (None, Some e), w')
          | None => (Returns (body, None), w')
          end
      end
  end.

(** The request [SendRequest] hands to [Do] once it has been constructed:
    the [Accept] header, and the forwarding header when an IP is set. *)
Definition requestFor (m : client W) (path : string) : Request :=
  let req := mkRequest "GET" (url m ++ path) [] in
  let req := Header_Add req "Accept" "application/json" in
  if ip m =? "" then req else Header_Add req "X-Forwarded-For" (ip m).

(** The message of the error for a status other than 200
    (metadata.go:87). *)
Definition statusMessage (status : Z) (path : string) : string :=
  "Error " ++ fmt_int status ++ " accessing " ++ path ++ " path".

(** [GetVersion] (metadata.go:97-103). *)
Definition GetVersion (m : client W) : M W (string * option error) :=
  '(resp, err) <- SendRequest m "/version" ;;
  match err with
  | Some e => ret ("", Some e)
  | None => ret (string_of_bytes resp, None)
  end.

(** The two trims of [GetRegionName] (metadata.go:111-112). *)
Definition unquote (regionName : string) : string :=
  let regionName := TrimSuffix regionName quote in
  let regionName := TrimPrefix regionName quote in
  regionName.

(** [GetRegionName] (metadata.go:105-114). *)
Definition GetRegionName (m : client W) : M W (string * option error) :=
  '(resp, err) <- SendRequest m "/region_name" ;;
  match err with
  | Some e => ret ("", Some e)
  | None => ret (unquote (string_of_bytes resp), None)
  end.

(** *** The resolution cascade *)

Context {json_environments : Unmarshaler (slice Environment.t)}.
Context {json_services : Unmarshaler (slice Service.t)}.
Context {json_stacks : Unmarshaler (slice Stack.t)}.
Context {json_containers : Unmarshaler (slice Container.t)}.
Context {json_hosts : Unmarshaler (slice Host.t)}.
Context {json_networks : Unmarshaler (slice Network.t)}.

(** The inner loop of [GetServiceByRegionEnvironment] (metadata.go:214-218):
    [Some svc] when the loop returns [svc], [None] when it runs to its end. *)
Fixpoint scanServices (stackName svcName : string) (services : list Service.t)
  : option Service.t :=
  match services with
  | [] => None
  | svc :: rest =>
    if (stackName =? Service.StackName svc) && (svcName =? Service.Name svc)
    then Some svc
    else scanServices stackName svcName rest
  end.

(** The outer loop of [GetServiceByRegionEnvironment] (metadata.go:212-220). *)
Fixpoint scanEnvironments (regionName envName stackName svcName : string)
  (environments : list Environment.t) : option Service.t :=
  match environments with
  | [] => None
  | env :: rest =>
    if (regionName =? Environment.RegionName env)
       && (envName =? Environment.Name env)
    then
      match scanServices stackName svcName (elems (Environment.Services env)) with
      | Some svc => Some svc
      | None => scanEnvironments regionName envName stackName svcName rest
      end
    else scanEnvironments regionName envName stackName svcName rest
  end.

(** [GetServiceByRegionEnvironment] (metadata.go:200-222). *)
Definition GetServiceByRegionEnvironment (m : client W)
  (regionName envName stackName svcName : string)
  : M W (Service.t * option error) :=
  '(resp, err) <- SendRequest m "/environments" ;;
  let service := Service.zero in
  match err with
  | Some e => ret (service, Some e)
  | None =>
    let '(environments, err) := Unmarshal resp (None : slice Environment.t) in
    match err with
    | Some e => ret (service, Some e)
    | None =>
      match scanEnvironments regionName envName stackName svcName
                             (elems environments) with
      | Some svc => ret (svc, None)
      | None => ret (service, None)
      end
    end
  end.

(** [GetServiceByEnvironment] (metadata.go:224-231). *)
Definition GetServiceByEnvironment (m : client W)
  (envName stackName svcName : string) : M W (Service.t * option error) :=
  '(regionName, err) <- GetRegionName m ;;
  let service := Service.zero in
  match err with
  | Some e => ret (service, Some e)
  | None => GetServiceByRegionEnvironment m regionName envName stackName svcName
  end.

(** [GetServices] (metadata.go:233-244). *)
Definition GetServices (m : client W) : M W (slice Service.t * option error) :=
  '(resp, err) <- SendRequest m "/services" ;;
  let services : slice Service.t := None in
  match err with
  | Some e => ret (services, Some e)
  | None =>
    let '(services, err) := Unmarshal resp services in
    match err with
    | Some e => ret (services, Some e)
    | None => ret (services, None)
    end
  end.

(** [GetStacks] (metadata.go:246-257). *)
Definition GetStacks (m : client W) : M W (slice Stack.t * option error) :=
  '(resp, err) <- SendRequest m "/stacks" ;;
  let stacks : slice Stack.t := None in
  match err with
  | Some e => ret (stacks, Some e)
  | None =>
    let '(stacks, err) := Unmarshal resp stacks in
    match err with
    | Some e => ret (stacks, Some e)
    | None => ret (stacks, None)
    end
  end.

(** One turn of the loop of [GetServicesByRegionEnvironment]
    (metadata.go:272-274). *)
Definition collectServices (regionName envName : string)
  (services : slice Service.t) (env : Environment.t) : slice Service.t :=
  if (regionName =? Environment.RegionName env)
     && (envName =? Environment.Name env)
  then appendAll services (elems (Environment.Services env))
  else services.

(** [GetServicesByRegionEnvironment] (metadata.go:259-277). *)
Definition GetServicesByRegionEnvironment (m : client W)
  (regionName envName : string) : M W (slice Service.t * option error) :=
  '(resp, err) <- SendRequest m "/environments" ;;
  let services : slice Service.t := None in
  match err with
  | Some e => ret (services, Some e)
  | None =>
    let '(environments, err) := Unmarshal resp (None : slice Environment.t) in
    match err with
    | Some e => ret (services, Some e)
    | None =>
      ret (fold_left (collectServices regionName envName)
                     (elems environments) services, None)
    end
  end.

(** [GetServicesByEnvironment] (metadata.go:279-286). *)
Definition GetServicesByEnvironment (m : client W) (envName : string)
  : M W (slice Service.t * option error) :=
  '(regionName, err) <- GetRegionName m ;;
  let services : slice Service.t := None in
  match err with
  | Some e => ret (services, Some e)
  | None => GetServicesByRegionEnvironment m regionName envName
  end.

(** [GetContainers] (metadata.go:302-313). *)
Definition GetContainers (m : client W)
  : M W (slice Container.t * option error) :=
  '(resp, err) <- SendRequest m "/containers" ;;
  let containers : slice Container.t := None in
  match err with
  | Some e => ret (containers, Some e)
  | None =>
    let '(containers, err) := Unmarshal resp containers in
    match err with
    | Some e => ret (containers, Some e)
    | None => ret (containers, None)
    end
  end.

(** One turn of the loop of [GetServiceContainers] (metadata.go:323-325). *)
Definition collectContainer (serviceName stackName : string)
  (serviceContainers : slice Container.t) (container : Container.t)
  : slice Container.t :=
  if (Container.StackName container =? stackName)
     && (Container.ServiceName container =? serviceName)
  then append1 serviceContainers container
  else serviceContainers.

(** [GetServiceContainers] (metadata.go:315-329). *)
Definition GetServiceContainers (m : client W) (serviceName stackName : string)
  : M W (slice Container.t * option error) :=
  let serviceContainers : slice Container.t := Some [] in
  '(containers, err) <- GetContainers m ;;
  match err with
  | Some e => ret (serviceContainers, Some e)
  | None =>
    ret (fold_left (collectContainer serviceName stackName)
                   (elems containers) serviceContainers, None)
  end.

(** [GetHosts] (metadata.go:331-342). *)
Definition GetHosts (m : client W) : M W (slice Host.t * option error) :=
  '(resp, err) <- SendRequest m "/hosts" ;;
  let hosts : slice Host.t := None in
  match err with
  | Some e => ret (hosts, Some e)
  | None =>
    let '(hosts, err) := Unmarshal resp hosts in
    match err with
    | Some e => ret (hosts, Some e)
    | None => ret (hosts, None)
    end
  end.

(** The loop of [GetHost] (metadata.go:350-354): [Some host] when the loop
    returns [host], [None] when it runs to its end. *)
Fixpoint scanHosts (UUID : string) (hosts : list Host.t) : option Host.t :=
  match hosts with
  | [] => None
  | host :: rest =>
    if Host.UUID host =? UUID then Some host else scanHosts UUID rest
  end.

(** [GetHost] (metadata.go:344-357). The loop variable shadows the outer
    [host], which is still the zero value after the loop. *)
Definition GetHost (m : client W) (UUID : string)
  : M W (Host.t * option error) :=
  let host := Host.zero in
  '(hosts, err) <- GetHosts m ;;
  match err with
  | Some e => ret (host, Some e)
  | None =>
    match scanHosts UUID (elems hosts) with
    | Some found => ret (found, None)
    | None =>
      ret (host, Some (mkError ("could not find host by UUID " ++ UUID)))
    end
  end.

(** [GetNetworks] (metadata.go:359-371). *)
Definition GetNetworks (m : client W) : M W (slice Network.t * option error) :=
  '(resp, err) <- SendRequest m "/networks" ;;
  let networks : slice Network.t := None in
  match err with
  | Some e => ret (networks, Some e)
  | None =>
    let '(networks, err) := Unmarshal resp networks in
    match err with
    | Some e => ret (networks, Some e)
    | None => ret (networks, None)
    end
  end.

End Client.

(** ** The change-notification loop *)

Section Watch.

Context {W : Type}.
Variable url_Parse : string -> option error.

(** The state of one polling task: the last observed version, and the
    arguments the callback has been invoked with so far, oldest first. *)
Record watcher := mkWatcher {
  lastObserved : string;
  calls : list string
}.

(** Modelled from the spec: one tick of the polling loop behind [OnChange]
    and [OnChangeWithError] (declared in the [Client] interface,
    metadata.go:13-14; their bodies are not in [metadata.go]). The tick
    fetches the version; a failed fetch changes nothing; a version that
    differs from the last observed one is recorded and handed to the
    callback; an equal one does nothing. *)
Definition tick (m : client W) (st : watcher) : M W watcher :=
  '(version, err) <- GetVersion url_Parse m ;;
  match err with
  | Some _ => ret st
  | None =>
    if version =? lastObserved st
    then ret st
    else ret (mkWatcher version (calls st ++ [version])%list)
  end.

(** The first [n] ticks of the loop. *)
Fixpoint ticks (m : client W) (n : nat) (st : watcher) : M W watcher :=
  match n with
  | O => ret st
  | S n' => st' <- tick m st ;; ticks m n' st'
  end.

(** Modelled from the spec: [OnChange] observed over its first [n] ticks,
    started with the last observed version empty; the result is the list of
    callback arguments, in the order of the invocations. *)
Definition OnChange (m : client W) (n : nat) : M W (list string) :=
  st <- ticks m n (mkWatcher "" []) ;;
  ret (calls st).

End Watch.

(** ** A scripted metadata service

    The world is the list of answers still to come; every exchange consumes
    the first one. *)

Definition script : Type := list (Response + error).

Definition scripted : HttpClient script :=
  mkHttpClient
    (fun _ w =>
       match w with
       | answer :: rest => (answer, rest)
       | [] => (inr (mkError "connection refused"), [])
       end).

(** An answer with the given status and body. *)
Definition answer (status : Z) (body : string) : Response + error :=
  inl (mkResponse status (mkReader (list_ascii_of_string body) None)).

(** A client of the scripted service. *)
Definition scriptedClient : client script :=
  mkClient "http://rancher-metadata/latest" "" scripted.

(** Every raw URL parses. *)
Definition parses : string -> option error := fun _ => None.

(** No raw URL parses. *)
Definition parsesNot : string -> option error :=
  fun _ => Some (mkError "invalid URL").

(** A decoder that stores [v] and succeeds: [json.Unmarshal] on a body that
    encodes [v]. The scripted bodies of JSON endpoints are written as
    placeholders such as ["<hosts>"]. *)
Definition decodesTo {T : Type} (v : T) : Unmarshaler T :=
  fun _ _ => (v, None).

(** A decoder that stores [v] and reports the type error [e], as
    [encoding/json] does for an array with an element of the wrong type: on
    [[1]] a slice of structs receives one zero element and [Unmarshal]
    returns an [UnmarshalTypeError]. *)
Definition decodesPartly {T : Type} (v : T) (e : error) : Unmarshaler T :=
  fun _ _ => (v, Some e).

(** ** Vocabulary of the statements *)

(** An environment of the queried region and name (the test of
    metadata.go:213 and 272). *)
Definition environmentMatches (regionName envName : string)
  (env : Environment.t) : bool :=
  (regionName =? Environment.RegionName env)
  && (envName =? Environment.Name env).

(** A service of the queried stack and name (the test of metadata.go:215). *)
Definition serviceMatches (stackName svcName : string) (svc : Service.t)
  : bool :=
  (stackName =? Service.StackName svc) && (svcName =? Service.Name svc).

(** A container of the queried service and stack (the test of
    metadata.go:323). *)
Definition containerMatches (serviceName stackName : string)
  (container : Container.t) : bool :=
  (Container.StackName container =? stackName)
  && (Container.ServiceName container =? serviceName).

(** The services listed by an environment, in order. *)
Definition servicesOf (env : Environment.t) : list Service.t :=
  elems (Environment.Services env).

(** What a bulk accessor [get], which fetches [path] and decodes a [[]T],
    returns with an error: the nil slice with a transport error, and the
    slice as the decoder left it with a decode error. *)
Definition returnsOnError {W T : Type} {json : Unmarshaler (slice T)}
  (url_Parse : string -> option error) (m : client W) (path : string)
  (get : M W (slice T * option error)) : Prop :=
  forall (w w' : W) (resp : ByteSlice),
    (forall e,
       SendRequest url_Parse m path w = (Returns (resp, Some e), w') ->
       get w = (Returns (None, Some e), w'))
    /\ (forall v e,
          SendRequest url_Parse m path w = (Returns (resp, None), w') ->
          Unmarshal resp (None : slice T) = (v, Some e) ->
          get w = (Returns (v, Some e), w')).

(** ** Sample listings *)

Definition web : Service.t := Service.mk "web" "app" [].
Definition db : Service.t := Service.mk "db" "app" [].

(** Two records of the environment [prod] of region [us]: the first lists
    no service, the second lists [db] and [web]. *)
Definition prodEmpty : Environment.t := Environment.mk "prod" "us" (Some []).
Definition prodWeb : Environment.t := Environment.mk "prod" "us" (Some [db; web]).
Definition stagingWeb : Environment.t := Environment.mk "staging" "us" (Some [web]).

Definition web1 : Container.t := Container.mk "web-1" "web" "app" [].
Definition web2 : Container.t := Container.mk "web-2" "web" "app" [].
Definition db1 : Container.t := Container.mk "db-1" "db" "app" [].

Definition hostA : Host.t := Host.mk "uuid-a" "a" [].
Definition hostB : Host.t := Host.mk "uuid-b" "b" [].

Definition someEnvironments : slice Environment.t :=
  Some [stagingWeb; prodEmpty; prodWeb].
Definition someContainers : slice Container.t := Some [web1; db1; web2].
Definition someHosts : slice Host.t := Some [hostA; hostB].

(** The error [encoding/json] reports for the body [[1]] decoded into a
    slice of [Container]. *)
Definition typeError : error :=
  mkError "json: cannot unmarshal number into Go value of type metadata.Container".

(** ** The constructors and the single-entity accessors *)

(** The zero values of [var container Container] and [var stack Stack]. *)
Definition zeroContainer : Container.t := Container.mk "" "" "" [].
Definition zeroStack : Stack.t := Stack.mk "" [].

Section Entities.

Context {W : Type}.
Variable url_Parse : string -> option error.

Context {json_host : Unmarshaler Host.t}.
Context {json_container : Unmarshaler Container.t}.
Context {json_service : Unmarshaler Service.t}.
Context {json_stack : Unmarshaler Stack.t}.

(** [newClient] (metadata.go:44-46). [net] is the network behind the
    [http.Client] the constructor allocates. *)
Definition newClient (net : HttpClient W) (url ip : string) : client W :=
  mkClient url ip net.

(** [NewClient] (metadata.go:48-51). *)
Definition NewClient (net : HttpClient W) (url : string) : client W :=
  let ip := "" in
  newClient net url ip.

(** [GetSelfHost] (metadata.go:116-128). *)
Definition GetSelfHost (m : client W) : M W (Host.t * option error) :=
  '(resp, err) <- SendRequest url_Parse m "/self/host" ;;
  let host := Host.zero in
  match err with
  | Some e => ret (host, Some e)
  | None =>
    let '(host, err) := Unmarshal resp host in
    match err with
    | Some e => ret (host, Some e)
    | None => ret (host, None)
    end
  end.

(** [GetSelfContainer] (metadata.go:130-142). *)
Definition GetSelfContainer (m : client W) : M W (Container.t * option error) :=
  '(resp, err) <- SendRequest url_Parse m "/self/container" ;;
  let container := zeroContainer in
  match err with
  | Some e => ret (container, Some e)
  | None =>
    let '(container, err) := Unmarshal resp container in
    match err with
    | Some e => ret (container, Some e)
    | None => ret (container, None)
    end
  end.

(** [GetSelfServiceByName] (metadata.go:144-156). *)
Definition GetSelfServiceByName (m : client W) (name : string)
  : M W (Service.t * option error) :=
  '(resp, err) <- SendRequest url_Parse m ("/self/stack/services/" ++ name) ;;
  let service := Service.zero in
  match err with
  | Some e => ret (service, Some e)
  | None =>
    let '(service, err) := Unmarshal resp service in
    match err with
    | Some e => ret (service, Some e)
    | None => ret (service, None)
    end
  end.

(** [GetSelfService] (metadata.go:158-170). *)
Definition GetSelfService (m : client W) : M W (Service.t * option error) :=
  '(resp, err) <- SendRequest url_Parse m "/self/service" ;;
  let service := Service.zero in
  match err with
  | Some e => ret (service, Some e)
  | None =>
    let '(service, err) := Unmarshal resp service in
    match err with
    | Some e => ret (service, Some e)
    | None => ret (service, None)
    end
  end.

(** [GetSelfStack] (metadata.go:172-184). *)
Definition GetSelfStack (m : client W) : M W (Stack.t * option error) :=
  '(resp, err) <- SendRequest url_Parse m "/self/stack" ;;
  let stack := zeroStack in
  match err with
  | Some e => ret (stack, Some e)
  | None =>
    let '(stack, err) := Unmarshal resp stack in
    match err with
    | Some e => ret (stack, Some e)
    | None => ret (stack, None)
    end
  end.

(** [GetServiceByName] (metadata.go:186-198). *)
Definition GetServiceByName (m : client W) (stackName svcName : string)
  : M W (Service.t * option error) :=
  '(resp, err) <- SendRequest url_Parse m
                    ((("/stacks/" ++ stackName) ++ "/services/") ++ svcName) ;;
  let service := Service.zero in
  match err with
  | Some e => ret (service, Some e)
  | None =>
    let '(service, err) := Unmarshal resp service in
    match err with
    | Some e => ret (service, Some e)
    | None => ret (service, None)
    end
  end.

(** [GetStackByName] (metadata.go:288-300). *)
Definition GetStackByName (m : client W) (name : string)
  : M W (Stack.t * option error) :=
  '(resp, err) <- SendRequest url_Parse m ("/stacks/" ++ name) ;;
  let stack := zeroStack in
  match err with
  | Some e => ret (stack, Some e)
  | None =>
    let '(stack, err) := Unmarshal resp stack in
    match err with
    | Some e => ret (stack, Some e)
    | None => ret (stack, None)
    end
  end.

End Entities.

(** ** Observing the requests

    A client whose exchanges are recorded: the world is paired with the log
    of the requests handed to [Do] so far, oldest first. *)

Definition logging {W : Type} (net : HttpClient W)
  : HttpClient (list Request * W) :=
  mkHttpClient
    (fun req lw =>
       let '(r, w') := Do net req (snd lw) in
       (r, ((fst lw ++ [req])%list, w'))).

Definition logged {W : Type} (m : client W) : client (list Request * W) :=
  mkClient (url m) (ip m) (logging (httpClient m)).

(** What a single-entity accessor [get], which fetches [path] and decodes
    into the zero value [zero], returns with an error: [zero] with a
    transport error, and the value as the decoder left it with a decode
    error. *)
Definition returnsOneOnError {W T : Type} {json : Unmarshaler T}
  (url_Parse : string -> option error) (m : client W) (path : string)
  (zero : T) (get : M W (T * option error)) : Prop :=
  forall (w w' : W) (resp : ByteSlice),
    (forall e,
       SendRequest url_Parse m path w = (Returns (resp, Some e), w') ->
       get w = (Returns (zero, Some e), w'))
    /\ (forall v e,
          SendRequest url_Parse m path w = (Returns (resp, None), w') ->
          Unmarshal resp zero = (v, e) ->
          get w = (Returns (v, e), w')).

(** A second record with the UUID of [hostA]. *)
Definition hostA' : Host.t := Host.mk "uuid-a" "a-again" [].

(** * Properties *)

(** ** Strings *)

Lemma substring_0_0 (s : string) : substring 0 0 s = "".
Proof. destruct s; reflexivity. Qed.

Lemma substring_whole (s : string) : substring 0 (String.length s) s = s.
Proof. induction s as [|c s IH]; simpl; [reflexivity | now rewrite IH]. Qed.

Lemma length_snoc (t u : string) :
  String.length (t ++ u) = (String.length t + String.length u)%nat.
Proof. induction t as [|c t IH]; simpl; [reflexivity | now rewrite IH]. Qed.

Lemma substring_init (t u : string) :
  substring 0 (String.length t) (t ++ u) = t.
Proof.
  induction t as [|c t IH]; simpl.
  - apply substring_0_0.
  - now rewrite IH.
Qed.

Lemma substring_tail (t u : string) :
  substring (String.length t) (String.length u) (t ++ u) = u.
Proof.
  induction t as [|c t IH]; simpl.
  - apply substring_whole.
  - exact IH.
Qed.

(** Every string is empty or ends with some character. *)
Lemma string_snoc_cases (s : string) :
  s = "" \/ exists t c, s = t ++ String c "".
Proof.
  induction s as [|c s IH].
  - now left.
  - right. destruct IH as [-> | (t & d & ->)].
    + now exists "", c.
    + now exists (String c t), d.
Qed.

Lemma append_empty_r (s : string) : s ++ "" = s.
Proof. induction s as [|c s IH]; simpl; [reflexivity | now rewrite IH]. Qed.

Lemma Contains_suffix (pre sub : string) : Contains (pre ++ sub) sub.
Proof. exists pre, "". now rewrite append_empty_r. Qed.

Lemma HasPrefix_quote_cons (c : ascii) (s : string) :
  HasPrefix (String c s) quote = Ascii.eqb c "034".
Proof.
  unfold HasPrefix, quote; simpl. rewrite substring_0_0. simpl.
  now destruct (Ascii.eqb c "034").
Qed.

Lemma TrimPrefix_quote_cons (c : ascii) (s : string) :
  TrimPrefix (String c s) quote = if Ascii.eqb c "034" then s else String c s.
Proof.
  unfold TrimPrefix. rewrite HasPrefix_quote_cons.
  destruct (Ascii.eqb c "034"); [|reflexivity].
  unfold quote; simpl. rewrite Nat.sub_0_r. apply substring_whole.
Qed.

Lemma TrimPrefix_quote_app (u : string) : TrimPrefix (quote ++ u) quote = u.
Proof. unfold quote at 1; simpl. now rewrite TrimPrefix_quote_cons. Qed.

Lemma HasSuffix_snoc (t : string) (c : ascii) :
  HasSuffix (t ++ String c "") quote = Ascii.eqb c "034".
Proof.
  unfold HasSuffix. rewrite length_snoc.
  change (String.length quote) with (String.length (String c "")).
  rewrite Nat.add_sub, substring_tail.
  replace (String.length (String c "") <=? String.length t + String.length (String c ""))%nat
    with true by (symmetry; apply Nat.leb_le; lia).
  unfold quote; simpl.
  now destruct (Ascii.eqb c "034").
Qed.

Lemma TrimSuffix_snoc (t : string) (c : ascii) :
  TrimSuffix (t ++ String c "") quote
  = if Ascii.eqb c "034" then t else t ++ String c "".
Proof.
  unfold TrimSuffix. rewrite HasSuffix_snoc.
  destruct (Ascii.eqb c "034"); [|reflexivity].
  rewrite length_snoc.
  change (String.length quote) with (String.length (String c "")).
  rewrite Nat.add_sub. apply substring_init.
Qed.

Lemma TrimSuffix_quote_app (t : string) : TrimSuffix (t ++ quote) quote = t.
Proof. unfold quote at 1. now rewrite TrimSuffix_snoc. Qed.

Lemma TrimPrefix_noop (s : string) :
  HasPrefix s quote = false -> TrimPrefix s quote = s.
Proof. unfold TrimPrefix; now intros ->. Qed.

Lemma TrimSuffix_noop (s : string) :
  HasSuffix s quote = false -> TrimSuffix s quote = s.
Proof. unfold TrimSuffix; now intros ->. Qed.

(** A trim that applies removes exactly one character. *)
Lemma TrimPrefix_length (s : string) :
  HasPrefix s quote = true ->
  S (String.length (TrimPrefix s quote)) = String.length s.
Proof.
  destruct s as [|c s]; [discriminate|].
  rewrite HasPrefix_quote_cons, TrimPrefix_quote_cons. now intros ->.
Qed.

Lemma TrimSuffix_length (s : string) :
  HasSuffix s quote = true ->
  S (String.length (TrimSuffix s quote)) = String.length s.
Proof.
  destruct (string_snoc_cases s) as [-> | (t & c & ->)]; [discriminate|].
  rewrite HasSuffix_snoc, TrimSuffix_snoc. intros ->.
  rewrite length_snoc; simpl; lia.
Qed.

Lemma TrimPrefix_le (s : string) :
  (String.length (TrimPrefix s quote) <= String.length s)%nat.
Proof.
  destruct (HasPrefix s quote) eqn:H.
  - apply TrimPrefix_length in H. lia.
  - rewrite TrimPrefix_noop by exact H. lia.
Qed.

Lemma TrimSuffix_le (s : string) :
  (String.length (TrimSuffix s quote) <= String.length s)%nat.
Proof.
  destruct (HasSuffix s quote) eqn:H.
  - apply TrimSuffix_length in H. lia.
  - rewrite TrimSuffix_noop by exact H. lia.
Qed.

Lemma unquote_noop (s : string) :
  HasPrefix s quote = false -> HasSuffix s quote = false -> unquote s = s.
Proof.
  intros Hp Hs. unfold unquote.
  rewrite (TrimSuffix_noop _ Hs). now apply TrimPrefix_noop.
Qed.

Lemma unquote_shrinks (s : string) :
  HasPrefix s quote = true \/ HasSuffix s quote = true ->
  (String.length (unquote s) < String.length s)%nat.
Proof.
  unfold unquote. intros [H | H].
  - destruct (HasSuffix s quote) eqn:Hs.
    + pose proof (TrimSuffix_length _ Hs). pose proof (TrimPrefix_le (TrimSuffix s quote)). lia.
    + rewrite (TrimSuffix_noop _ Hs). apply TrimPrefix_length in H. lia.
  - pose proof (TrimSuffix_length _ H). pose proof (TrimPrefix_le (TrimSuffix s quote)). lia.
Qed.

(** C7, as stated, fails: a region name wrapped in two quotes on each side
    loses one pair per unquoting, so the second unquoting is not the
    identity. *)
Lemma unquote_not_idempotent :
  let s := quote ++ quote ++ "a" ++ quote ++ quote in
  unquote s = quote ++ "a" ++ quote
  /\ unquote (unquote s) = "a"
  /\ unquote (unquote s) <> unquote s.
Proof. repeat split; try reflexivity. discriminate. Qed.

(** C7, amended: [unquote] removes one trailing quote if there is one, then
    one leading quote if there is one, and leaves a string with neither
    unchanged; unquoting twice equals unquoting once exactly when the
    unquoted string neither starts nor ends with a quote. *)
Theorem unquote_strips_one_pair (s : string) :
  (forall m, s = quote ++ m ++ quote -> unquote s = m)
  /\ (forall m, s = m ++ quote -> HasPrefix m quote = false -> unquote s = m)
  /\ (forall m, s = quote ++ m -> HasSuffix s quote = false -> unquote s = m)
  /\ (HasPrefix s quote = false -> HasSuffix s quote = false -> unquote s = s)
  /\ (unquote (unquote s) = unquote s
      <-> HasPrefix (unquote s) quote = false
          /\ HasSuffix (unquote s) quote = false).
Proof.
  split; [|split; [|split; [|split; [|split; [intros Heq; split|]]]]].
  - intros m ->. unfold unquote.
    change (quote ++ m ++ quote) with ((quote ++ m) ++ quote).
    rewrite TrimSuffix_quote_app. apply TrimPrefix_quote_app.
  - intros m -> Hm. unfold unquote.
    rewrite TrimSuffix_quote_app. now apply TrimPrefix_noop.
  - intros m -> Hs. unfold unquote.
    rewrite (TrimSuffix_noop _ Hs). apply TrimPrefix_quote_app.
  - apply unquote_noop.
  - destruct (HasPrefix (unquote s) quote) eqn:Hp; [|reflexivity].
    pose proof (unquote_shrinks (unquote s) (or_introl Hp)) as Hlt.
    rewrite Heq in Hlt. lia.
  - destruct (HasSuffix (unquote s) quote) eqn:Hs; [|reflexivity].
    pose proof (unquote_shrinks (unquote s) (or_intror Hs)) as Hlt.
    rewrite Heq in Hlt. lia.
  - intros [Hp Hs]. now apply unquote_noop.
Qed.

Lemma unquote_strips_one_pair_witness :
  unquote (quote ++ "us-west-2" ++ quote) = "us-west-2"
  /\ unquote ("us-west-2" ++ quote) = "us-west-2"
  /\ unquote (quote ++ "us-west-2") = "us-west-2"
  /\ unquote "us-west-2" = "us-west-2"
  /\ unquote (unquote (quote ++ "us-west-2" ++ quote))
     = unquote (quote ++ "us-west-2" ++ quote).
Proof.
  split; [|split; [|split; [|split]]].
  - apply (proj1 (unquote_strips_one_pair (quote ++ "us-west-2" ++ quote))
                 "us-west-2" eq_refl).
  - apply (proj1 (proj2 (unquote_strips_one_pair ("us-west-2" ++ quote)))
                 "us-west-2" eq_refl eq_refl).
  - apply (proj1 (proj2 (proj2 (unquote_strips_one_pair (quote ++ "us-west-2"))))
                 "us-west-2" eq_refl eq_refl).
  - apply (proj1 (proj2 (proj2 (proj2 (unquote_strips_one_pair "us-west-2"))))
                 eq_refl eq_refl).
  - apply (proj2 (proj2 (proj2 (proj2 (proj2
            (unquote_strips_one_pair (quote ++ "us-west-2" ++ quote))))))).
    split; reflexivity.
Defined.

(** ** The exchange *)

Section Exchange.

Context {W : Type}.
Variable url_Parse : string -> option error.

Lemma Contains_middle (pre sub post : string) :
  Contains (pre ++ sub ++ post) sub.
Proof. now exists pre, post. Qed.

Lemma append_assoc (a b c : string) : (a ++ b) ++ c = a ++ b ++ c.
Proof. induction a as [|x a IH]; simpl; [reflexivity | now rewrite IH]. Qed.

Lemma statusMessage_carries (status : Z) (path : string) :
  Contains (statusMessage status path) (fmt_int status)
  /\ Contains (statusMessage status path) path.
Proof.
  unfold statusMessage. split.
  - apply Contains_middle.
  - exists ("Error " ++ fmt_int status ++ " accessing "), " path".
    now rewrite !append_assoc.
Qed.

(** [SendRequest] once the request has been constructed. *)
Lemma SendRequest_constructed (m : client W) (path : string) (w : W) :
  url_Parse (url m ++ path) = None ->
  SendRequest url_Parse m path w =
  match Do (httpClient m) (requestFor m path) w with
  | (inr err, w') => (Returns (None, Some err), w')
  | (inl resp, w') =>
    if negb (StatusCode resp =? 200)%Z
    then (Returns (None, Some (mkError (statusMessage (StatusCode resp) path))), w')
    else match failure (Body resp) with
         | Some e => (Returns (None, Some e), w')
         | None => (Returns (Some (content (Body resp)), None), w')
         end
  end.
Proof.
  intros Hurl. unfold SendRequest, NewRequest, requestFor. rewrite Hurl.
  reflexivity.
Qed.

(** [SendRequest] when the request cannot be constructed. *)
Lemma SendRequest_not_constructed (m : client W) (path : string) (w : W)
  (e0 : error) :
  url_Parse (url m ++ path) = Some e0 ->
  SendRequest url_Parse m path w = (Panics, w).
Proof.
  intros Hurl. unfold SendRequest, NewRequest. now rewrite Hurl.
Qed.

(** C8: a response with a status other than 200 yields a nil body and the
    error "Error <status> accessing <path> path", which carries the status
    code and the path; and a body with a nil error is returned only for a
    response with status 200 (it is then the body read from the response). *)
Theorem SendRequest_status (m : client W) (path : string) (w w' : W)
  (resp : Response) :
  url_Parse (url m ++ path) = None ->
  Do (httpClient m) (requestFor m path) w = (inl resp, w') ->
  (StatusCode resp <> 200%Z ->
     SendRequest url_Parse m path w
     = (Returns (None, Some (mkError (statusMessage (StatusCode resp) path))), w')
     /\ Contains (statusMessage (StatusCode resp) path) (fmt_int (StatusCode resp))
     /\ Contains (statusMessage (StatusCode resp) path) path)
  /\ (forall body w'',
        SendRequest url_Parse m path w = (Returns (body, None), w'') ->
        StatusCode resp = 200%Z /\ body = Some (content (Body resp))).
Proof.
  intros Hurl HDo. rewrite (SendRequest_constructed m path w Hurl), HDo.
  split.
  - intros Hne. apply Z.eqb_neq in Hne. rewrite Hne. simpl.
    split; [reflexivity | apply statusMessage_carries].
  - intros body w''. destruct (Z.eqb_spec (StatusCode resp) 200) as [Heq | Hne];
      simpl.
    + destruct (failure (Body resp)); intros H; inversion H. now split.
    + intros H; inversion H.
Qed.

(** C9: an error returned by [SendRequest] comes from executing the
    request, from a status other than 200, or from reading the body, and the
    request had then been constructed without error; when the construction
    fails, [SendRequest] returns nothing at all (it panics on the nil
    request), so that failure is never returned as an error. *)
Theorem SendRequest_error_sources (m : client W) (path : string) (w : W) :
  (forall e0, url_Parse (url m ++ path) = Some e0 ->
     SendRequest url_Parse m path w = (Panics, w))
  /\ (forall body e w',
        SendRequest url_Parse m path w = (Returns (body, Some e), w') ->
        url_Parse (url m ++ path) = None
        /\ body = None
        /\ (Do (httpClient m) (requestFor m path) w = (inr e, w')
            \/ (exists resp,
                  Do (httpClient m) (requestFor m path) w = (inl resp, w')
                  /\ StatusCode resp <> 200%Z
                  /\ e = mkError (statusMessage (StatusCode resp) path))
            \/ (exists resp,
                  Do (httpClient m) (requestFor m path) w = (inl resp, w')
                  /\ StatusCode resp = 200%Z
                  /\ snd (ReadAll (Body resp)) = Some e))).
Proof.
  split.
  - intros e0. apply SendRequest_not_constructed.
  - intros body e w'. destruct (url_Parse (url m ++ path)) as [e0|] eqn:Hurl.
    + rewrite (SendRequest_not_constructed m path w Hurl). discriminate.
    + rewrite (SendRequest_constructed m path w Hurl).
      destruct (Do (httpClient m) (requestFor m path) w) as [[resp | err] w1].
      * destruct (Z.eqb_spec (StatusCode resp) 200) as [Heq | Hne]; simpl.
        -- destruct (failure (Body resp)) as [e1|] eqn:Hf;
             intros H; inversion H; subst.
           repeat split. right; right. exists resp. now repeat split.
        -- intros H; inversion H; subst.
           repeat split. right; left. exists resp. now repeat split.
      * intros H; inversion H; subst. repeat split. now left.
Qed.

End Exchange.

(** ** The resolution cascade *)

Section Cascade.

Context {W : Type}.
Variable url_Parse : string -> option error.
Context {json_environments : Unmarshaler (slice Environment.t)}.
Context {json_services : Unmarshaler (slice Service.t)}.
Context {json_stacks : Unmarshaler (slice Stack.t)}.
Context {json_containers : Unmarshaler (slice Container.t)}.
Context {json_hosts : Unmarshaler (slice Host.t)}.
Context {json_networks : Unmarshaler (slice Network.t)}.

(** *** The loops *)

Lemma find_append {A : Type} (f : A -> bool) (l1 l2 : list A) :
  find f (l1 ++ l2)%list
  = match find f l1 with
    | Some x => Some x
    | None => find f l2
    end.
Proof.
  induction l1 as [|x l1 IH]; simpl; [reflexivity|].
  now destruct (f x).
Qed.

Lemma filter_none {A : Type} (f : A -> bool) (l : list A) :
  (forall x, In x l -> f x = false) -> filter f l = [].
Proof.
  induction l as [|x l IH]; intros Hnone; simpl; [reflexivity|].
  rewrite (Hnone x) by now left.
  apply IH. intros y Hy. apply Hnone. now right.
Qed.

Lemma scanServices_find (stackName svcName : string) (services : list Service.t) :
  scanServices stackName svcName services
  = find (serviceMatches stackName svcName) services.
Proof.
  induction services as [|svc rest IH]; simpl; [reflexivity|].
  unfold serviceMatches at 1. now rewrite IH.
Qed.

Lemma scanEnvironments_find (regionName envName stackName svcName : string)
  (environments : list Environment.t) :
  scanEnvironments regionName envName stackName svcName environments
  = find (serviceMatches stackName svcName)
         (flat_map servicesOf
                   (filter (environmentMatches regionName envName) environments)).
Proof.
  induction environments as [|env rest IH]; simpl; [reflexivity|].
  fold (environmentMatches regionName envName env).
  destruct (environmentMatches regionName envName env); simpl; [|exact IH].
  rewrite find_append, scanServices_find. fold (servicesOf env).
  now rewrite IH.
Qed.

Lemma collectServices_fold (regionName envName : string)
  (environments : list Environment.t) (services : slice Service.t) :
  elems (fold_left (collectServices regionName envName) environments services)
  = (elems services
     ++ flat_map servicesOf
                 (filter (environmentMatches regionName envName) environments))%list.
Proof.
  revert services.
  induction environments as [|env rest IH]; intros services; simpl.
  - now rewrite app_nil_r.
  - rewrite IH. unfold collectServices.
    fold (environmentMatches regionName envName env).
    destruct (environmentMatches regionName envName env); simpl; [|reflexivity].
    fold (servicesOf env). rewrite app_assoc. f_equal.
    unfold appendAll. destruct (servicesOf env); simpl.
    + now rewrite app_nil_r.
    + reflexivity.
Qed.

Lemma collectContainer_fold (serviceName stackName : string)
  (containers acc : list Container.t) :
  fold_left (collectContainer serviceName stackName) containers (Some acc)
  = Some (acc ++ filter (containerMatches serviceName stackName) containers)%list.
Proof.
  revert acc.
  induction containers as [|c rest IH]; intros acc; simpl.
  - now rewrite app_nil_r.
  - unfold collectContainer at 2. fold (containerMatches serviceName stackName c).
    destruct (containerMatches serviceName stackName c).
    + unfold append1; simpl. rewrite IH, <- app_assoc. reflexivity.
    + apply IH.
Qed.

Lemma scanHosts_find (UUID : string) (hosts : list Host.t) :
  scanHosts UUID hosts = find (fun host => Host.UUID host =? UUID) hosts.
Proof.
  induction hosts as [|host rest IH]; simpl; [reflexivity|]. now rewrite IH.
Qed.

(** *** Services *)

(** C1, amended: the scan visits the service list of every environment of
    the queried region and name, in listing order, and returns the first
    service of the queried stack and name it meets, with a nil error; when
    none of these environments lists such a service (in particular when no
    environment matches) it returns the zero-value service with a nil
    error. *)
Theorem GetServiceByRegionEnvironment_first_match (m : client W)
  (regionName envName stackName svcName : string) (w w' : W)
  (resp : ByteSlice) (environments : slice Environment.t) :
  SendRequest url_Parse m "/environments" w = (Returns (resp, None), w') ->
  Unmarshal resp (None : slice Environment.t) = (environments, None) ->
  GetServiceByRegionEnvironment url_Parse m regionName envName stackName svcName w
  = (Returns
       (match find (serviceMatches stackName svcName)
                   (flat_map servicesOf
                             (filter (environmentMatches regionName envName)
                                     (elems environments))) with
        | Some svc => svc
        | None => Service.zero
        end, None), w').
Proof.
  intros Hsend Hjson. unfold GetServiceByRegionEnvironment, bind.
  rewrite Hsend, Hjson, scanEnvironments_find.
  now destruct (find _ _).
Qed.

(** C3: once [GetRegionName] has returned the region [r] with a nil error,
    [GetServiceByEnvironment] returns what [GetServiceByRegionEnvironment]
    returns for [r], asked next of the same service. *)
Theorem GetServiceByEnvironment_delegates (m : client W)
  (envName stackName svcName r : string) (w w1 : W) :
  GetRegionName url_Parse m w = (Returns (r, None), w1) ->
  GetServiceByEnvironment url_Parse m envName stackName svcName w
  = GetServiceByRegionEnvironment url_Parse m r envName stackName svcName w1.
Proof.
  intros Hregion. unfold GetServiceByEnvironment, bind at 1.
  now rewrite Hregion.
Qed.

(** C5: the services returned are those of every environment of the queried
    region and name, concatenated in listing order, with a nil error. *)
Theorem GetServicesByRegionEnvironment_concat (m : client W)
  (regionName envName : string) (w w' : W)
  (resp : ByteSlice) (environments : slice Environment.t) :
  SendRequest url_Parse m "/environments" w = (Returns (resp, None), w') ->
  Unmarshal resp (None : slice Environment.t) = (environments, None) ->
  exists services,
    GetServicesByRegionEnvironment url_Parse m regionName envName w
    = (Returns (services, None), w')
    /\ elems services
       = flat_map servicesOf
                  (filter (environmentMatches regionName envName)
                          (elems environments)).
Proof.
  intros Hsend Hjson. unfold GetServicesByRegionEnvironment, bind.
  rewrite Hsend, Hjson. eexists. split; [reflexivity|].
  now rewrite collectServices_fold.
Qed.

(** *** Containers *)

(** C6: the containers returned are exactly those of the queried stack and
    service, in listing order, with a nil error; when none matches the
    result is the empty, non-nil slice with a nil error. *)
Theorem GetServiceContainers_filter (m : client W)
  (serviceName stackName : string) (w w' : W)
  (containers : slice Container.t) :
  GetContainers url_Parse m w = (Returns (containers, None), w') ->
  GetServiceContainers url_Parse m serviceName stackName w
  = (Returns (Some (filter (containerMatches serviceName stackName)
                           (elems containers)), None), w')
  /\ ((forall c, In c (elems containers) ->
                 containerMatches serviceName stackName c = false) ->
      GetServiceContainers url_Parse m serviceName stackName w
      = (Returns (Some [], None), w')).
Proof.
  intros Hget.
  assert (Hres : GetServiceContainers url_Parse m serviceName stackName w
                 = (Returns (Some (filter (containerMatches serviceName stackName)
                                          (elems containers)), None), w')).
  { unfold GetServiceContainers, bind. rewrite Hget.
    now rewrite collectContainer_fold. }
  split; [exact Hres|].
  intros Hnone. rewrite Hres. now rewrite filter_none.
Qed.

(** *** Hosts *)

(** C2: when the listing holds a host of the queried UUID, [GetHost] returns
    a host of the listing with that UUID and a nil error; otherwise it
    returns the error "could not find host by UUID <UUID>", which carries
    the UUID, and so never a host with a nil error. *)
Theorem GetHost_found_or_error (m : client W) (UUID : string) (w w' : W)
  (hosts : slice Host.t) :
  GetHosts url_Parse m w = (Returns (hosts, None), w') ->
  ((exists h, In h (elems hosts) /\ Host.UUID h = UUID) ->
     exists found,
       GetHost url_Parse m UUID w = (Returns (found, None), w')
       /\ Host.UUID found = UUID
       /\ In found (elems hosts))
  /\ ((forall h, In h (elems hosts) -> Host.UUID h <> UUID) ->
      GetHost url_Parse m UUID w
      = (Returns (Host.zero,
                  Some (mkError ("could not find host by UUID " ++ UUID))), w')
      /\ Contains ("could not find host by UUID " ++ UUID) UUID
      /\ forall h, GetHost url_Parse m UUID w <> (Returns (h, None), w')).
Proof.
  intros Hget. unfold GetHost, bind. rewrite Hget, scanHosts_find.
  split.
  - intros (h & Hin & Hu).
    destruct (find (fun host => Host.UUID host =? UUID) (elems hosts))
      as [found|] eqn:Hfind.
    + apply find_some in Hfind as [Hin' Heq]. apply String.eqb_eq in Heq.
      now exists found.
    + apply (find_none _ _ Hfind) in Hin. apply String.eqb_neq in Hin.
      contradiction.
  - intros Hnone.
    destruct (find (fun host => Host.UUID host =? UUID) (elems hosts))
      as [found|] eqn:Hfind.
    + apply find_some in Hfind as [Hin' Heq]. apply String.eqb_eq in Heq.
      now apply Hnone in Hin'.
    + split; [reflexivity|]. split.
      * apply Contains_suffix.
      * intros h H. inversion H.
Qed.

End Cascade.

(** ** Slices returned with an error *)

Section Errors.

Context {W : Type}.
Variable url_Parse : string -> option error.
Context {json_services : Unmarshaler (slice Service.t)}.
Context {json_stacks : Unmarshaler (slice Stack.t)}.
Context {json_containers : Unmarshaler (slice Container.t)}.
Context {json_hosts : Unmarshaler (slice Host.t)}.
Context {json_networks : Unmarshaler (slice Network.t)}.

Ltac bulk_on_error :=
  intros w w' resp; split;
  [ intros e Hsend; unfold bind; now rewrite Hsend
  | intros v e Hsend Hjson; unfold bind; rewrite Hsend; cbn;
    now rewrite Hjson ].

Lemma GetContainers_on_error (m : client W) :
  returnsOnError url_Parse m "/containers" (GetContainers url_Parse m).
Proof. unfold GetContainers; bulk_on_error. Qed.

Lemma GetHosts_on_error (m : client W) :
  returnsOnError url_Parse m "/hosts" (GetHosts url_Parse m).
Proof. unfold GetHosts; bulk_on_error. Qed.

Lemma GetServices_on_error (m : client W) :
  returnsOnError url_Parse m "/services" (GetServices url_Parse m).
Proof. unfold GetServices; bulk_on_error. Qed.

Lemma GetStacks_on_error (m : client W) :
  returnsOnError url_Parse m "/stacks" (GetStacks url_Parse m).
Proof. unfold GetStacks; bulk_on_error. Qed.

Lemma GetNetworks_on_error (m : client W) :
  returnsOnError url_Parse m "/networks" (GetNetworks url_Parse m).
Proof. unfold GetNetworks; bulk_on_error. Qed.

(** C10, amended: whenever [GetServiceContainers] returns, its slice is
    non-nil, and it is the empty slice when the containers fetch returned an
    error; each bulk accessor returns the nil slice alongside a transport
    error, and alongside a decode error the slice as the decoder left it. *)
Theorem slices_returned_with_errors (m : client W) :
  (forall serviceName stackName w w' s err,
     GetServiceContainers url_Parse m serviceName stackName w
     = (Returns (s, err), w') ->
     s <> None)
  /\ (forall serviceName stackName w w' containers e,
        GetContainers url_Parse m w = (Returns (containers, Some e), w') ->
        GetServiceContainers url_Parse m serviceName stackName w
        = (Returns (Some [], Some e), w'))
  /\ returnsOnError url_Parse m "/containers" (GetContainers url_Parse m)
  /\ returnsOnError url_Parse m "/hosts" (GetHosts url_Parse m)
  /\ returnsOnError url_Parse m "/services" (GetServices url_Parse m)
  /\ returnsOnError url_Parse m "/stacks" (GetStacks url_Parse m)
  /\ returnsOnError url_Parse m "/networks" (GetNetworks url_Parse m).
Proof.
  split; [|split; [|split; [|split; [|split; [|split]]]]].
  - intros serviceName stackName w w' s err.
    unfold GetServiceContainers, bind.
    destruct (GetContainers url_Parse m w) as [[[containers [e|]]|] w1].
    + intros H; inversion H. discriminate.
    + rewrite collectContainer_fold. intros H; inversion H. discriminate.
    + discriminate.
  - intros serviceName stackName w w' containers e Hget.
    unfold GetServiceContainers, bind. now rewrite Hget.
  - apply GetContainers_on_error.
  - apply GetHosts_on_error.
  - apply GetServices_on_error.
  - apply GetStacks_on_error.
  - apply GetNetworks_on_error.
Qed.

End Errors.

(** ** The polling loop *)

Section Polling.

Context {W : Type}.
Variable url_Parse : string -> option error.

Lemma tick_new_version (m : client W) (st : watcher) (version : string)
  (w w' : W) :
  GetVersion url_Parse m w = (Returns (version, None), w') ->
  version <> lastObserved st ->
  tick url_Parse m st w
  = (Returns (mkWatcher version (calls st ++ [version])%list), w').
Proof.
  intros Hget Hne. unfold tick, bind. rewrite Hget.
  apply String.eqb_neq in Hne. now rewrite Hne.
Qed.

Lemma tick_same_version (m : client W) (st : watcher) (w w' : W) :
  GetVersion url_Parse m w = (Returns (lastObserved st, None), w') ->
  tick url_Parse m st w = (Returns st, w').
Proof.
  intros Hget. unfold tick, bind. rewrite Hget. now rewrite String.eqb_refl.
Qed.

Lemma ticks_step (m : client W) (n : nat) (st st' : watcher) (w w' : W) :
  tick url_Parse m st w = (Returns st', w') ->
  ticks url_Parse m (S n) st w = ticks url_Parse m n st' w'.
Proof. intros Htick. simpl. unfold bind. now rewrite Htick. Qed.

(** C4, amended: on the version responses v1, v1, v2, v2, v3, one per tick,
    a loop started with the last observed version empty invokes the callback
    exactly three times, with v1, v2 and v3 in that order: the first
    response already differs from the empty initial value. *)
Theorem OnChange_five_ticks (m : client W) (w0 w1 w2 w3 w4 w5 : W) :
  GetVersion url_Parse m w0 = (Returns ("v1", None), w1) ->
  GetVersion url_Parse m w1 = (Returns ("v1", None), w2) ->
  GetVersion url_Parse m w2 = (Returns ("v2", None), w3) ->
  GetVersion url_Parse m w3 = (Returns ("v2", None), w4) ->
  GetVersion url_Parse m w4 = (Returns ("v3", None), w5) ->
  OnChange url_Parse m 5 w0 = (Returns ["v1"; "v2"; "v3"], w5).
Proof.
  intros H0 H1 H2 H3 H4.
  pose proof (@tick_new_version m (mkWatcher "" []) _ _ _ H0) as T0.
  pose proof (@tick_same_version m (mkWatcher "v1" ["v1"]) _ _ H1) as T1.
  pose proof (@tick_new_version m (mkWatcher "v1" ["v1"]) _ _ _ H2) as T2.
  pose proof (@tick_same_version m (mkWatcher "v2" ["v1"; "v2"]) _ _ H3) as T3.
  pose proof (@tick_new_version m (mkWatcher "v2" ["v1"; "v2"]) _ _ _ H4) as T4.
  unfold OnChange. unfold bind at 1.
  rewrite (@ticks_step m 4 _ _ _ _ (T0 ltac:(discriminate))).
  cbn [calls app lastObserved].
  rewrite (@ticks_step m 3 _ _ _ _ T1).
  rewrite (@ticks_step m 2 _ _ _ _ (T2 ltac:(discriminate))).
  cbn [calls app lastObserved].
  rewrite (@ticks_step m 1 _ _ _ _ T3).
  rewrite (@ticks_step m 0 _ _ _ _ (T4 ltac:(discriminate))).
  cbn [calls app lastObserved].
  reflexivity.
Qed.

End Polling.

(** ** The statements at work on the scripted service *)

(** C1, as stated, fails: the first environment of region [us] and name
    [prod] lists no service of stack [app] and name [web], and the scan
    finds such a service all the same, in a later record of the same
    environment, instead of returning the zero value. *)
Lemma GetServiceByRegionEnvironment_searches_on :
  let listing := [prodEmpty; prodWeb] in
  let result :=
    GetServiceByRegionEnvironment (json_environments := decodesTo (Some listing))
      parses scriptedClient "us" "prod" "app" "web"
      [answer 200 "<environments>"] in
  find (environmentMatches "us" "prod") listing = Some prodEmpty
  /\ (forall svc, In svc (servicesOf prodEmpty) ->
                  serviceMatches "app" "web" svc = false)
  /\ result = (Returns (web, None), [])
  /\ result <> (Returns (Service.zero, None), []).
Proof.
  cbv zeta. split; [reflexivity|]. split; [intros svc []|].
  split; [reflexivity | discriminate].
Qed.

Lemma GetServiceByRegionEnvironment_first_match_witness :
  GetServiceByRegionEnvironment (json_environments := decodesTo someEnvironments)
    parses scriptedClient "us" "prod" "app" "web"
    [answer 200 "<environments>"]
  = (Returns (web, None), []).
Proof.
  exact (@GetServiceByRegionEnvironment_first_match
           script parses (decodesTo someEnvironments) scriptedClient
           "us" "prod" "app" "web" [answer 200 "<environments>"] []
           (Some (list_ascii_of_string "<environments>")) someEnvironments
           eq_refl eq_refl).
Defined.

Lemma GetHost_found_or_error_witness :
  (exists found,
     GetHost (json_hosts := decodesTo someHosts) parses scriptedClient "uuid-b"
       [answer 200 "<hosts>"]
     = (Returns (found, None), [])
     /\ Host.UUID found = "uuid-b"
     /\ In found (elems someHosts))
  /\ GetHost (json_hosts := decodesTo someHosts) parses scriptedClient "uuid-c"
       [answer 200 "<hosts>"]
     = (Returns (Host.zero, Some (mkError "could not find host by UUID uuid-c")),
        []).
Proof.
  split.
  - apply (proj1 (@GetHost_found_or_error
                    script parses (decodesTo someHosts) scriptedClient
                    "uuid-b" [answer 200 "<hosts>"] [] someHosts eq_refl)).
    exists hostB. split; [right; left|]; reflexivity.
  - apply (proj2 (@GetHost_found_or_error
                    script parses (decodesTo someHosts) scriptedClient
                    "uuid-c" [answer 200 "<hosts>"] [] someHosts eq_refl)).
    intros h [<- | [<- | []]]; discriminate.
Defined.

Lemma GetServiceByEnvironment_delegates_witness :
  GetServiceByEnvironment (json_environments := decodesTo someEnvironments)
    parses scriptedClient "prod" "app" "web"
    [answer 200 (quote ++ "us" ++ quote); answer 200 "<environments>"]
  = GetServiceByRegionEnvironment (json_environments := decodesTo someEnvironments)
      parses scriptedClient "us" "prod" "app" "web"
      [answer 200 "<environments>"].
Proof.
  exact (@GetServiceByEnvironment_delegates
           script parses (decodesTo someEnvironments) scriptedClient
           "prod" "app" "web" "us"
           [answer 200 (quote ++ "us" ++ quote); answer 200 "<environments>"]
           [answer 200 "<environments>"] eq_refl).
Defined.

Lemma GetServicesByRegionEnvironment_concat_witness :
  exists services,
    GetServicesByRegionEnvironment
      (json_environments := decodesTo (Some [prodWeb; stagingWeb; prodEmpty; prodWeb]))
      parses scriptedClient "us" "prod" [answer 200 "<environments>"]
    = (Returns (services, None), [])
    /\ elems services = [db; web; db; web].
Proof.
  exact (@GetServicesByRegionEnvironment_concat
           script parses
           (decodesTo (Some [prodWeb; stagingWeb; prodEmpty; prodWeb]))
           scriptedClient "us" "prod" [answer 200 "<environments>"] []
           (Some (list_ascii_of_string "<environments>"))
           (Some [prodWeb; stagingWeb; prodEmpty; prodWeb])
           eq_refl eq_refl).
Defined.

Lemma GetServiceContainers_filter_witness :
  GetServiceContainers (json_containers := decodesTo someContainers)
    parses scriptedClient "web" "app" [answer 200 "<containers>"]
  = (Returns (Some [web1; web2], None), [])
  /\ GetServiceContainers (json_containers := decodesTo someContainers)
       parses scriptedClient "cache" "app" [answer 200 "<containers>"]
     = (Returns (Some [], None), []).
Proof.
  split.
  - exact (proj1 (@GetServiceContainers_filter
                    script parses (decodesTo someContainers) scriptedClient
                    "web" "app" [answer 200 "<containers>"] [] someContainers
                    eq_refl)).
  - apply (proj2 (@GetServiceContainers_filter
                    script parses (decodesTo someContainers) scriptedClient
                    "cache" "app" [answer 200 "<containers>"] [] someContainers
                    eq_refl)).
    intros c [<- | [<- | [<- | []]]]; reflexivity.
Defined.

Lemma SendRequest_status_witness :
  SendRequest parses scriptedClient "/hosts" [answer 404 "not found"]
  = (Returns (None, Some (mkError "Error 404 accessing /hosts path")), [])
  /\ (forall body w'',
        SendRequest parses scriptedClient "/hosts" [answer 200 "<hosts>"]
        = (Returns (body, None), w'') ->
        body = Some (list_ascii_of_string "<hosts>")).
Proof.
  split.
  - refine (proj1 (proj1 (@SendRequest_status
                    script parses scriptedClient "/hosts"
                    [answer 404 "not found"] []
                    (mkResponse 404 (mkReader (list_ascii_of_string "not found") None))
                    eq_refl eq_refl) _)).
    simpl. lia.
  - intros body w'' H.
    apply (proj2 (@SendRequest_status
                    script parses scriptedClient "/hosts"
                    [answer 200 "<hosts>"] []
                    (mkResponse 200 (mkReader (list_ascii_of_string "<hosts>") None))
                    eq_refl eq_refl) body w'' H).
Defined.

Lemma SendRequest_error_sources_witness :
  SendRequest parsesNot scriptedClient "/hosts" [answer 200 "<hosts>"]
  = (Panics, [answer 200 "<hosts>"])
  /\ Do scripted (requestFor scriptedClient "/hosts") []
     = (inr (mkError "connection refused"), []).
Proof.
  split.
  - exact (proj1 (@SendRequest_error_sources
                    script parsesNot scriptedClient "/hosts"
                    [answer 200 "<hosts>"])
                 (mkError "invalid URL") eq_refl).
  - destruct (proj2 (@SendRequest_error_sources
                       script parses scriptedClient "/hosts" [])
                    None (mkError "connection refused") [] eq_refl)
      as (_ & _ & [Hdo | [(resp & Hdo & _) | (resp & Hdo & _)]]).
    + exact Hdo.
    + discriminate Hdo.
    + discriminate Hdo.
Defined.

(** C10, as stated, fails: with the body [[1]] the decoder stores a slice of
    one zero-value container and reports a type error, and [GetContainers]
    returns that non-nil slice alongside the decode error. *)
Lemma GetContainers_decode_error_slice :
  let partial : slice Container.t := Some [Container.mk "" "" "" []] in
  let result :=
    GetContainers (json_containers := decodesPartly partial typeError)
      parses scriptedClient [answer 200 "[1]"] in
  result = (Returns (partial, Some typeError), [])
  /\ partial <> None.
Proof. cbv zeta. split; [reflexivity | discriminate]. Qed.

Lemma slices_returned_with_errors_witness :
  GetServiceContainers (json_containers := decodesTo someContainers)
    parses scriptedClient "web" "app" []
  = (Returns (Some [], Some (mkError "connection refused")), [])
  /\ GetContainers (json_containers := decodesTo someContainers)
       parses scriptedClient []
     = (Returns (None, Some (mkError "connection refused")), [])
  /\ GetHosts (json_hosts := decodesPartly None typeError)
       parses scriptedClient [answer 200 "{"]
     = (Returns (None, Some typeError), []).
Proof.
  pose proof (@slices_returned_with_errors
                script parses (decodesTo None) (decodesTo None)
                (decodesTo someContainers) (decodesPartly None typeError)
                (decodesTo None) scriptedClient)
    as (_ & Hservice & Hcontainers & Hhosts & _).
  assert (Hc : GetContainers (json_containers := decodesTo someContainers)
                 parses scriptedClient []
               = (Returns (None, Some (mkError "connection refused")), [])).
  { exact (proj1 (Hcontainers [] [] None) _ eq_refl). }
  split; [|split].
  - exact (Hservice "web" "app" [] [] None _ Hc).
  - exact Hc.
  - exact (proj2 (Hhosts [answer 200 "{"] []
                         (Some (list_ascii_of_string "{")))
                 None typeError eq_refl eq_refl).
Defined.

(** C4, as stated, fails: a loop started with the last observed version
    empty fires on the first response as well, so the callback is invoked
    three times, not twice, and its first argument is v1. *)
Lemma OnChange_fires_on_first_version :
  let responses :=
    [answer 200 "v1"; answer 200 "v1"; answer 200 "v2"; answer 200 "v2";
     answer 200 "v3"] in
  OnChange parses scriptedClient 5 responses = (Returns ["v1"; "v2"; "v3"], [])
  /\ OnChange parses scriptedClient 5 responses <> (Returns ["v2"; "v3"], []).
Proof. cbv zeta. split; [reflexivity | discriminate]. Qed.

Lemma OnChange_five_ticks_witness :
  OnChange parses scriptedClient 5
    [answer 200 "v1"; answer 200 "v1"; answer 200 "v2"; answer 200 "v2";
     answer 200 "v3"]
  = (Returns ["v1"; "v2"; "v3"], []).
Proof.
  exact (@OnChange_five_ticks
           script parses scriptedClient
           [answer 200 "v1"; answer 200 "v1"; answer 200 "v2"; answer 200 "v2";
            answer 200 "v3"]
           [answer 200 "v1"; answer 200 "v2"; answer 200 "v2"; answer 200 "v3"]
           [answer 200 "v2"; answer 200 "v2"; answer 200 "v3"]
           [answer 200 "v2"; answer 200 "v3"]
           [answer 200 "v3"]
           []
           eq_refl eq_refl eq_refl eq_refl eq_refl).
Defined.

(** * Further properties of the client *)

(** ** The exchange, observed *)

Section ExchangeObserved.

Context {W : Type}.
Variable url_Parse : string -> option error.

(** X1: [SendRequest] returns either a body or an error, never both and
    never neither. *)
Theorem SendRequest_body_xor_error (m : client W) (path : string) (w w' : W)
  (body : ByteSlice) (err : option error) :
  SendRequest url_Parse m path w = (Returns (body, err), w') ->
  (body = None /\ err <> None) \/ (body <> None /\ err = None).
Proof.
  destruct (url_Parse (url m ++ path)) as [e0|] eqn:Hurl.
  - rewrite (SendRequest_not_constructed url_Parse m path w Hurl). discriminate.
  - rewrite (SendRequest_constructed url_Parse m path w Hurl).
    destruct (Do (httpClient m) (requestFor m path) w) as [[resp | e] w1].
    + destruct (negb (StatusCode resp =? 200)%Z).
      * intros H; inversion H. left. split; [reflexivity | discriminate].
      * destruct (failure (Body resp)); intros H; inversion H.
        -- left. split; [reflexivity | discriminate].
        -- right. split; [discriminate | reflexivity].
    + intros H; inversion H. left. split; [reflexivity | discriminate].
Qed.

Lemma requestFor_logged (m : client W) (path : string) :
  requestFor (logged m) path = requestFor m path.
Proof. reflexivity. Qed.

Lemma SendRequest_logged_constructed (m : client W) (path : string)
  (log : list Request) (w : W) :
  url_Parse (url m ++ path) = None ->
  SendRequest url_Parse (logged m) path (log, w)
  = (fst (SendRequest url_Parse m path w),
     ((log ++ [requestFor m path])%list, snd (SendRequest url_Parse m path w))).
Proof.
  intros Hurl.
  rewrite (SendRequest_constructed url_Parse m path w Hurl).
  assert (Hurl' : url_Parse (url (logged m) ++ path) = None) by exact Hurl.
  rewrite (SendRequest_constructed url_Parse (logged m) path (log, w) Hurl').
  rewrite requestFor_logged. simpl.
  destruct (Do (httpClient m) (requestFor m path) w) as [[resp | e] w1].
  - destruct (negb (StatusCode resp =? 200)%Z); [reflexivity|].
    now destruct (failure (Body resp)).
  - reflexivity.
Qed.

(** X2: recording the requests does not change what [SendRequest] returns,
    and [SendRequest] hands exactly one request to the network, the one for
    its path; when the URL does not parse it panics before anything is
    sent. *)
Theorem SendRequest_one_exchange (m : client W) (path : string)
  (log : list Request) (w : W) :
  (url_Parse (url m ++ path) = None ->
   SendRequest url_Parse (logged m) path (log, w)
   = (fst (SendRequest url_Parse m path w),
      ((log ++ [requestFor m path])%list,
       snd (SendRequest url_Parse m path w))))
  /\ (forall e0, url_Parse (url m ++ path) = Some e0 ->
      SendRequest url_Parse (logged m) path (log, w) = (Panics, (log, w))).
Proof.
  split.
  - apply SendRequest_logged_constructed.
  - intros e0 Hurl.
    exact (SendRequest_not_constructed url_Parse (logged m) path (log, w) Hurl).
Qed.

(** X3: a client made by [NewClient] sends a GET request for the base URL
    followed by the path, with the single header [Accept: application/json];
    a client made by [newClient] with a non-empty IP adds
    [X-Forwarded-For] with that IP after it. *)
Theorem NewClient_request (net : HttpClient W) (base ip path : string)
  (log : list Request) (w : W) :
  url_Parse (base ++ path) = None ->
  snd (SendRequest url_Parse (logged (NewClient net base)) path (log, w))
  = ((log ++ [mkRequest "GET" (base ++ path)
                        [("Accept", "application/json")]])%list,
     snd (SendRequest url_Parse (NewClient net base) path w))
  /\ (ip <> "" ->
      snd (SendRequest url_Parse (logged (newClient net base ip)) path (log, w))
      = ((log ++ [mkRequest "GET" (base ++ path)
                            [("Accept", "application/json");
                             ("X-Forwarded-For", ip)]])%list,
         snd (SendRequest url_Parse (newClient net base ip) path w))).
Proof.
  intros Hurl. split.
  - now rewrite (SendRequest_logged_constructed (NewClient net base) path log w Hurl).
  - intros Hip.
    rewrite (SendRequest_logged_constructed (newClient net base ip) path log w Hurl).
    simpl. unfold requestFor. simpl.
    apply String.eqb_neq in Hip. now rewrite Hip.
Qed.

(** [SendRequest] on a 200 answer whose body reads without error. *)
Lemma SendRequest_answer (m : client W) (path body : string) (w w' : W) :
  url_Parse (url m ++ path) = None ->
  Do (httpClient m) (requestFor m path) w = (answer 200 body, w') ->
  SendRequest url_Parse m path w
  = (Returns (Some (list_ascii_of_string body), None), w').
Proof.
  intros Hurl HDo.
  now rewrite (SendRequest_constructed url_Parse m path w Hurl), HDo.
Qed.

(** X4: [GetVersion] returns the body of a 200 answer byte for byte, with a
    nil error, and returns the empty string alongside every error. *)
Theorem GetVersion_verbatim (m : client W) (w w' : W) :
  (forall version,
     url_Parse (url m ++ "/version") = None ->
     Do (httpClient m) (requestFor m "/version") w = (answer 200 version, w') ->
     GetVersion url_Parse m w = (Returns (version, None), w'))
  /\ (forall version e,
        GetVersion url_Parse m w = (Returns (version, Some e), w') ->
        version = "").
Proof.
  split.
  - intros version Hurl HDo. unfold GetVersion, bind.
    rewrite (@SendRequest_answer m "/version" version w w' Hurl HDo).
    cbv beta iota delta [ret string_of_bytes elems].
    now rewrite string_of_list_ascii_of_string.
  - intros version e. unfold GetVersion, bind.
    destruct (SendRequest url_Parse m "/version" w) as [[[resp [e1|]]|] w1];
      intros H; inversion H. reflexivity.
Qed.

(** X5: [GetRegionName] returns the name the service sent between quotes,
    and a name sent without quotes unchanged, when the name itself neither
    starts nor ends with a quote. *)
Theorem GetRegionName_unquoted (m : client W) (name : string) (w w' : W) :
  url_Parse (url m ++ "/region_name") = None ->
  (Do (httpClient m) (requestFor m "/region_name") w
   = (answer 200 (quote ++ name ++ quote), w') ->
   GetRegionName url_Parse m w = (Returns (name, None), w'))
  /\ (Do (httpClient m) (requestFor m "/region_name") w
      = (answer 200 name, w') ->
      HasPrefix name quote = false -> HasSuffix name quote = false ->
      GetRegionName url_Parse m w = (Returns (name, None), w')).
Proof.
  intros Hurl. split.
  - intros HDo. unfold GetRegionName, bind.
    rewrite (@SendRequest_answer m "/region_name" _ w w' Hurl HDo).
    cbv beta iota delta [ret string_of_bytes elems].
    rewrite string_of_list_ascii_of_string. unfold unquote.
    change (quote ++ name ++ quote) with ((quote ++ name) ++ quote).
    now rewrite TrimSuffix_quote_app, TrimPrefix_quote_app.
  - intros HDo Hp Hs. unfold GetRegionName, bind.
    rewrite (@SendRequest_answer m "/region_name" _ w w' Hurl HDo).
    cbv beta iota delta [ret string_of_bytes elems].
    rewrite string_of_list_ascii_of_string.
    now rewrite (unquote_noop _ Hp Hs).
Qed.

End ExchangeObserved.

Lemma TrimPrefix_decompose (s : string) :
  exists a, s = a ++ TrimPrefix s quote /\ (a = "" \/ a = quote).
Proof.
  destruct s as [|c s].
  - exists "". split; [reflexivity | now left].
  - rewrite TrimPrefix_quote_cons.
    destruct (Ascii.eqb_spec c "034") as [-> | _].
    + exists quote. split; [reflexivity | now right].
    + exists "". split; [reflexivity | now left].
Qed.

Lemma TrimSuffix_decompose (s : string) :
  exists b, s = TrimSuffix s quote ++ b /\ (b = "" \/ b = quote).
Proof.
  destruct (string_snoc_cases s) as [-> | (t & c & ->)].
  - exists "". split; [reflexivity | now left].
  - rewrite TrimSuffix_snoc.
    destruct (Ascii.eqb_spec c "034") as [-> | _].
    + exists quote. split; [reflexivity | now right].
    + exists "". split; [now rewrite append_empty_r | now left].
Qed.

(** X6: the unquoting of [GetRegionName] only ever removes a quote at the
    start and a quote at the end: every string is its unquoted form with at
    most one quote put back on each side. *)
Theorem unquote_decompose (s : string) :
  exists a b,
    s = a ++ unquote s ++ b
    /\ (a = "" \/ a = quote)
    /\ (b = "" \/ b = quote).
Proof.
  destruct (TrimSuffix_decompose s) as (b & Hs & Hb).
  destruct (TrimPrefix_decompose (TrimSuffix s quote)) as (a & Ht & Ha).
  exists a, b. split; [|split; assumption].
  unfold unquote. rewrite <- append_assoc, <- Ht. exact Hs.
Qed.

(** ** The cascade, further *)

Lemma find_first {A : Type} (f : A -> bool) (l : list A) (x : A) :
  find f l = Some x ->
  exists pre post,
    l = (pre ++ x :: post)%list /\ f x = true
    /\ forall y, In y pre -> f y = false.
Proof.
  induction l as [|a l IH]; simpl; [discriminate|].
  destruct (f a) eqn:Hfa.
  - intros H; inversion H; subst. exists [], l. now repeat split.
  - intros H. destruct (IH H) as (pre & post & -> & Hfx & Hpre).
    exists (a :: pre), post. repeat split; [assumption|].
    intros y [<- | Hy]; [assumption | now apply Hpre].
Qed.

Lemma appendAll_appendAll {A : Type} (s : slice A) (xs ys : list A) :
  appendAll (appendAll s xs) ys = appendAll s (xs ++ ys)%list.
Proof.
  destruct xs as [|x xs]; [reflexivity|].
  destruct ys as [|y ys]; simpl.
  - now rewrite app_nil_r.
  - now rewrite <- app_assoc.
Qed.

Lemma collectServices_fold_slice (regionName envName : string)
  (environments : list Environment.t) (services : slice Service.t) :
  fold_left (collectServices regionName envName) environments services
  = appendAll services
      (flat_map servicesOf
                (filter (environmentMatches regionName envName) environments)).
Proof.
  revert services.
  induction environments as [|env rest IH]; intros services; simpl.
  - reflexivity.
  - rewrite IH. unfold collectServices.
    fold (environmentMatches regionName envName env).
    destruct (environmentMatches regionName envName env); simpl; [|reflexivity].
    fold (servicesOf env). apply appendAll_appendAll.
Qed.

Lemma in_matching_services (regionName envName : string)
  (environments : list Environment.t) (svc : Service.t) :
  In svc (flat_map servicesOf
            (filter (environmentMatches regionName envName) environments))
  <-> exists env,
        In env environments
        /\ environmentMatches regionName envName env = true
        /\ In svc (servicesOf env).
Proof.
  rewrite in_flat_map. split.
  - intros (env & Hin & Hsvc). apply filter_In in Hin as [Hin Hm].
    now exists env.
  - intros (env & Hin & Hm & Hsvc). exists env. split; [|assumption].
    apply filter_In. now split.
Qed.

Section CascadeObserved.

Context {W : Type}.
Variable url_Parse : string -> option error.
Context {json_environments : Unmarshaler (slice Environment.t)}.
Context {json_containers : Unmarshaler (slice Container.t)}.
Context {json_hosts : Unmarshaler (slice Host.t)}.

(** X7: the host [GetHost] returns is the first of the listing with the
    queried UUID: no host listed before it has that UUID. *)
Theorem GetHost_first_match (m : client W) (UUID : string) (w w' : W)
  (hosts : slice Host.t) (found : Host.t) :
  GetHosts url_Parse m w = (Returns (hosts, None), w') ->
  GetHost url_Parse m UUID w = (Returns (found, None), w') ->
  exists pre post,
    elems hosts = (pre ++ found :: post)%list
    /\ Host.UUID found = UUID
    /\ forall h, In h pre -> Host.UUID h <> UUID.
Proof.
  intros Hget. unfold GetHost, bind. rewrite Hget, scanHosts_find.
  destruct (find (fun host => Host.UUID host =? UUID) (elems hosts))
    as [h|] eqn:Hfind; intros H; inversion H; subst.
  destruct (find_first _ _ Hfind) as (pre & post & Hl & Hu & Hpre).
  exists pre, post. split; [assumption|]. split.
  - now apply String.eqb_eq.
  - intros h Hin. apply String.eqb_neq. now apply Hpre.
Qed.

(** X8: the lookups of the cascade return the zero value alongside every
    error: the zero host, the zero service, the nil slice of services. *)
Theorem cascade_zero_with_error (m : client W) :
  (forall UUID w w' host e,
     GetHost url_Parse m UUID w = (Returns (host, Some e), w') ->
     host = Host.zero)
  /\ (forall regionName envName stackName svcName w w' svc e,
        GetServiceByRegionEnvironment url_Parse m regionName envName
                                      stackName svcName w
        = (Returns (svc, Some e), w') ->
        svc = Service.zero)
  /\ (forall envName stackName svcName w w' svc e,
        GetServiceByEnvironment url_Parse m envName stackName svcName w
        = (Returns (svc, Some e), w') ->
        svc = Service.zero)
  /\ (forall regionName envName w w' services e,
        GetServicesByRegionEnvironment url_Parse m regionName envName w
        = (Returns (services, Some e), w') ->
        services = None)
  /\ (forall envName w w' services e,
        GetServicesByEnvironment url_Parse m envName w
        = (Returns (services, Some e), w') ->
        services = None).
Proof.
  assert (Hsvc : forall regionName envName stackName svcName w w' svc e,
             GetServiceByRegionEnvironment url_Parse m regionName envName
                                           stackName svcName w
             = (Returns (svc, Some e), w') ->
             svc = Service.zero).
  { intros regionName envName stackName svcName w w' svc e.
    unfold GetServiceByRegionEnvironment, bind.
    destruct (SendRequest url_Parse m "/environments" w)
      as [[[resp [e1|]]|] w1]; [intros H; now inversion H | | discriminate].
    destruct (Unmarshal resp (None : slice Environment.t)) as [envs [e2|]];
      [intros H; now inversion H|].
    destruct (scanEnvironments _ _ _ _ _); intros H; inversion H. }
  assert (Hsvcs : forall regionName envName w w' services e,
             GetServicesByRegionEnvironment url_Parse m regionName envName w
             = (Returns (services, Some e), w') ->
             services = None).
  { intros regionName envName w w' services e.
    unfold GetServicesByRegionEnvironment, bind.
    destruct (SendRequest url_Parse m "/environments" w)
      as [[[resp [e1|]]|] w1]; [intros H; now inversion H | | discriminate].
    destruct (Unmarshal resp (None : slice Environment.t)) as [envs [e2|]];
      intros H; now inversion H. }
  split; [|split; [exact Hsvc | split; [|split; [exact Hsvcs|]]]].
  - intros UUID w w' host e. unfold GetHost, bind.
    destruct (GetHosts url_Parse m w) as [[[hosts [e1|]]|] w1];
      [intros H; now inversion H | | discriminate].
    destruct (scanHosts UUID (elems hosts)); intros H; now inversion H.
  - intros envName stackName svcName w w' svc e.
    unfold GetServiceByEnvironment, bind at 1.
    destruct (GetRegionName url_Parse m w) as [[[r [e1|]]|] w1];
      [intros H; now inversion H | apply Hsvc | discriminate].
  - intros envName w w' services e.
    unfold GetServicesByEnvironment, bind at 1.
    destruct (GetRegionName url_Parse m w) as [[[r [e1|]]|] w1];
      [intros H; now inversion H | apply Hsvcs | discriminate].
Qed.

(** X9: on a listing fetched and decoded without error,
    [GetServiceByRegionEnvironment] returns either a service of the queried
    stack and name listed by an environment of the queried region and name,
    or the zero service, and the latter only when no such environment lists
    such a service. *)
Theorem GetServiceByRegionEnvironment_sound (m : client W)
  (regionName envName stackName svcName : string) (w w' : W)
  (resp : ByteSlice) (environments : slice Environment.t) :
  SendRequest url_Parse m "/environments" w = (Returns (resp, None), w') ->
  Unmarshal resp (None : slice Environment.t) = (environments, None) ->
  exists svc,
    GetServiceByRegionEnvironment url_Parse m regionName envName
                                  stackName svcName w
    = (Returns (svc, None), w')
    /\ ((exists env,
           In env (elems environments)
           /\ environmentMatches regionName envName env = true
           /\ In svc (servicesOf env)
           /\ Service.StackName svc = stackName
           /\ Service.Name svc = svcName)
        \/ (svc = Service.zero
            /\ forall env s,
                 In env (elems environments) ->
                 environmentMatches regionName envName env = true ->
                 In s (servicesOf env) ->
                 serviceMatches stackName svcName s = false)).
Proof.
  intros Hsend Hjson. unfold GetServiceByRegionEnvironment, bind.
  rewrite Hsend, Hjson, scanEnvironments_find.
  destruct (find _ _) as [svc|] eqn:Hfind.
  - exists svc. split; [reflexivity|]. left.
    apply find_some in Hfind as [Hin Hm].
    apply in_matching_services in Hin as (env & Hin & Henv & Hsvc).
    unfold serviceMatches in Hm. apply andb_true_iff in Hm as [Hs Hn].
    apply String.eqb_eq in Hs, Hn. exists env. now repeat split.
  - exists Service.zero. split; [reflexivity|]. right.
    split; [reflexivity|]. intros env s Hin Henv Hs.
    apply (find_none _ _ Hfind). apply in_matching_services. now exists env.
Qed.

(** X10: on a listing fetched and decoded without error,
    [GetServicesByRegionEnvironment] returns the nil slice exactly when the
    environments of the queried region and name list no service at all, and
    a service is returned exactly when one of these environments lists
    it. *)
Theorem GetServicesByRegionEnvironment_members (m : client W)
  (regionName envName : string) (w w' : W)
  (resp : ByteSlice) (environments : slice Environment.t) :
  SendRequest url_Parse m "/environments" w = (Returns (resp, None), w') ->
  Unmarshal resp (None : slice Environment.t) = (environments, None) ->
  exists services,
    GetServicesByRegionEnvironment url_Parse m regionName envName w
    = (Returns (services, None), w')
    /\ (services = None
        <-> forall env,
              In env (elems environments) ->
              environmentMatches regionName envName env = true ->
              servicesOf env = [])
    /\ (forall svc,
          In svc (elems services)
          <-> exists env,
                In env (elems environments)
                /\ environmentMatches regionName envName env = true
                /\ In svc (servicesOf env)).
Proof.
  intros Hsend Hjson. unfold GetServicesByRegionEnvironment, bind.
  rewrite Hsend, Hjson. eexists. split; [reflexivity|].
  rewrite collectServices_fold_slice.
  set (all := flat_map servicesOf
                (filter (environmentMatches regionName envName)
                        (elems environments))).
  assert (Hall : forall svc, In svc all
                   <-> exists env,
                         In env (elems environments)
                         /\ environmentMatches regionName envName env = true
                         /\ In svc (servicesOf env))
    by (intros svc; apply in_matching_services).
  split.
  - split.
    + intros Hnil env Hin Henv.
      destruct (servicesOf env) as [|s l] eqn:Hs; [reflexivity|].
      assert (Hs' : In s all).
      { apply Hall. exists env. rewrite Hs. repeat split; try assumption.
        now left. }
      destruct all; [contradiction | discriminate].
    + intros Hempty. destruct all as [|s l]; [reflexivity|].
      destruct (proj1 (Hall s) (or_introl eq_refl)) as (env & Hin & Henv & Hs).
      rewrite (Hempty env Hin Henv) in Hs. contradiction.
  - intros svc. rewrite <- Hall. now destruct all.
Qed.

(** X11: on the same listing, the service [GetServiceByRegionEnvironment]
    returns is the first service of the queried stack and name among those
    [GetServicesByRegionEnvironment] returns, and the zero service when
    there is none among them. *)
Theorem GetService_among_GetServices (m : client W)
  (regionName envName stackName svcName : string) (w w' : W)
  (resp : ByteSlice) (environments : slice Environment.t) :
  SendRequest url_Parse m "/environments" w = (Returns (resp, None), w') ->
  Unmarshal resp (None : slice Environment.t) = (environments, None) ->
  exists services,
    GetServicesByRegionEnvironment url_Parse m regionName envName w
    = (Returns (services, None), w')
    /\ GetServiceByRegionEnvironment url_Parse m regionName envName
                                     stackName svcName w
       = (Returns (match find (serviceMatches stackName svcName)
                              (elems services) with
                   | Some svc => svc
                   | None => Service.zero
                   end, None), w').
Proof.
  intros Hsend Hjson.
  unfold GetServicesByRegionEnvironment, GetServiceByRegionEnvironment, bind.
  rewrite Hsend, Hjson. eexists. split; [reflexivity|].
  rewrite collectServices_fold, scanEnvironments_find. simpl.
  now destruct (find _ _).
Qed.

End CascadeObserved.

(** ** The requests an accessor sends *)

Section Requests.

Context {W : Type}.
Variable url_Parse : string -> option error.
Context {json_environments : Unmarshaler (slice Environment.t)}.
Context {json_containers : Unmarshaler (slice Container.t)}.
Context {json_hosts : Unmarshaler (slice Host.t)}.
Context {json_host : Unmarshaler Host.t}.
Context {json_container : Unmarshaler Container.t}.
Context {json_service : Unmarshaler Service.t}.
Context {json_stack : Unmarshaler Stack.t}.

(** An accessor that fetches [path] once and computes on the result sends
    the one request for [path]. *)
Ltac one_request path :=
  let Hurl := fresh "Hurl" in
  intros Hurl; unfold bind;
  rewrite (@SendRequest_logged_constructed _ url_Parse _ path _ _ Hurl);
  simpl fst; simpl snd;
  match goal with
  | |- context [SendRequest url_Parse ?m path ?w] =>
    destruct (SendRequest url_Parse m path w) as [[[? [?|]]|] ?]
  end;
  simpl; try reflexivity.

Lemma GetRegionName_logged (m : client W) (log : list Request) (w : W) :
  url_Parse (url m ++ "/region_name") = None ->
  GetRegionName url_Parse (logged m) (log, w)
  = (fst (GetRegionName url_Parse m w),
     ((log ++ [requestFor m "/region_name"])%list,
      snd (GetRegionName url_Parse m w))).
Proof. unfold GetRegionName. one_request "/region_name". Qed.

Lemma GetServiceByRegionEnvironment_logged (m : client W)
  (regionName envName stackName svcName : string)
  (log : list Request) (w : W) :
  url_Parse (url m ++ "/environments") = None ->
  GetServiceByRegionEnvironment url_Parse (logged m) regionName envName
                                stackName svcName (log, w)
  = (fst (GetServiceByRegionEnvironment url_Parse m regionName envName
                                        stackName svcName w),
     ((log ++ [requestFor m "/environments"])%list,
      snd (GetServiceByRegionEnvironment url_Parse m regionName envName
                                         stackName svcName w))).
Proof.
  unfold GetServiceByRegionEnvironment. one_request "/environments".
  destruct (Unmarshal _ _) as [envs [e|]]; [reflexivity|].
  now destruct (scanEnvironments _ _ _ _ _).
Qed.

Lemma GetServicesByRegionEnvironment_logged (m : client W)
  (regionName envName : string) (log : list Request) (w : W) :
  url_Parse (url m ++ "/environments") = None ->
  GetServicesByRegionEnvironment url_Parse (logged m) regionName envName (log, w)
  = (fst (GetServicesByRegionEnvironment url_Parse m regionName envName w),
     ((log ++ [requestFor m "/environments"])%list,
      snd (GetServicesByRegionEnvironment url_Parse m regionName envName w))).
Proof.
  unfold GetServicesByRegionEnvironment. one_request "/environments".
  now destruct (Unmarshal _ _) as [envs [e|]].
Qed.

Lemma GetHosts_logged (m : client W) (log : list Request) (w : W) :
  url_Parse (url m ++ "/hosts") = None ->
  GetHosts url_Parse (logged m) (log, w)
  = (fst (GetHosts url_Parse m w),
     ((log ++ [requestFor m "/hosts"])%list, snd (GetHosts url_Parse m w))).
Proof.
  unfold GetHosts. one_request "/hosts".
  now destruct (Unmarshal _ _) as [hosts [e|]].
Qed.

Lemma GetContainers_logged (m : client W) (log : list Request) (w : W) :
  url_Parse (url m ++ "/containers") = None ->
  GetContainers url_Parse (logged m) (log, w)
  = (fst (GetContainers url_Parse m w),
     ((log ++ [requestFor m "/containers"])%list,
      snd (GetContainers url_Parse m w))).
Proof.
  unfold GetContainers. one_request "/containers".
  now destruct (Unmarshal _ _) as [containers [e|]].
Qed.

(** X12: each lookup of the cascade that reads one listing sends exactly
    one request, for that listing, whatever the outcome, and returns what it
    returns unobserved. *)
Theorem cascade_one_request (m : client W) (log : list Request) (w : W) :
  (url_Parse (url m ++ "/hosts") = None ->
   forall UUID,
     GetHost url_Parse (logged m) UUID (log, w)
     = (fst (GetHost url_Parse m UUID w),
        ((log ++ [requestFor m "/hosts"])%list,
         snd (GetHost url_Parse m UUID w))))
  /\ (url_Parse (url m ++ "/containers") = None ->
      forall serviceName stackName,
        GetServiceContainers url_Parse (logged m) serviceName stackName (log, w)
        = (fst (GetServiceContainers url_Parse m serviceName stackName w),
           ((log ++ [requestFor m "/containers"])%list,
            snd (GetServiceContainers url_Parse m serviceName stackName w))))
  /\ (url_Parse (url m ++ "/environments") = None ->
      forall regionName envName stackName svcName,
        GetServiceByRegionEnvironment url_Parse (logged m) regionName envName
                                      stackName svcName (log, w)
        = (fst (GetServiceByRegionEnvironment url_Parse m regionName envName
                                              stackName svcName w),
           ((log ++ [requestFor m "/environments"])%list,
            snd (GetServiceByRegionEnvironment url_Parse m regionName envName
                                               stackName svcName w)))).
Proof.
  split; [|split].
  - intros Hurl UUID. unfold GetHost, bind.
    rewrite (GetHosts_logged m log w Hurl). simpl fst; simpl snd.
    destruct (GetHosts url_Parse m w) as [[[hosts [e|]]|] w1];
      simpl; try reflexivity.
    now destruct (scanHosts UUID (elems hosts)).
  - intros Hurl serviceName stackName. unfold GetServiceContainers, bind.
    rewrite (GetContainers_logged m log w Hurl). simpl fst; simpl snd.
    now destruct (GetContainers url_Parse m w) as [[[containers [e|]]|] w1].
  - intros Hurl regionName envName stackName svcName.
    now apply GetServiceByRegionEnvironment_logged.
Qed.

(** X13: [GetServiceByEnvironment] and [GetServicesByEnvironment] first
    request the region name and then, only when that returned a nil error,
    the environments; recording the requests does not change their
    result. *)
Theorem ByEnvironment_requests (m : client W) (log : list Request) (w : W) :
  url_Parse (url m ++ "/region_name") = None ->
  url_Parse (url m ++ "/environments") = None ->
  let sent :=
    (log ++ requestFor m "/region_name"
         :: match fst (GetRegionName url_Parse m w) with
            | Returns (_, None) => [requestFor m "/environments"]
            | _ => []
            end)%list in
  (forall envName stackName svcName,
     GetServiceByEnvironment url_Parse (logged m) envName stackName svcName
                             (log, w)
     = (fst (GetServiceByEnvironment url_Parse m envName stackName svcName w),
        (sent,
         snd (GetServiceByEnvironment url_Parse m envName stackName svcName w))))
  /\ (forall envName,
        GetServicesByEnvironment url_Parse (logged m) envName (log, w)
        = (fst (GetServicesByEnvironment url_Parse m envName w),
           (sent, snd (GetServicesByEnvironment url_Parse m envName w)))).
Proof.
  intros Hregion Henvs sent. subst sent. split.
  - intros envName stackName svcName.
    unfold GetServiceByEnvironment, bind.
    rewrite (GetRegionName_logged m log w Hregion). simpl fst; simpl snd.
    destruct (GetRegionName url_Parse m w) as [[[r [e|]]|] w1];
      simpl; try reflexivity.
    rewrite (GetServiceByRegionEnvironment_logged m r envName stackName svcName
               (log ++ [requestFor m "/region_name"]) w1 Henvs).
    now rewrite <- app_assoc.
  - intros envName.
    unfold GetServicesByEnvironment, bind.
    rewrite (GetRegionName_logged m log w Hregion). simpl fst; simpl snd.
    destruct (GetRegionName url_Parse m w) as [[[r [e|]]|] w1];
      simpl; try reflexivity.
    rewrite (GetServicesByRegionEnvironment_logged m r envName
               (log ++ [requestFor m "/region_name"]) w1 Henvs).
    now rewrite <- app_assoc.
Qed.

(** X14: each single-entity accessor returns the zero value alongside a
    transport error and, once the body is fetched, exactly the value and
    the error the decoder produced from the zero value. *)
Theorem single_entity_results (m : client W) :
  returnsOneOnError url_Parse m "/self/host" Host.zero
                    (GetSelfHost url_Parse m)
  /\ returnsOneOnError url_Parse m "/self/container" zeroContainer
                       (GetSelfContainer url_Parse m)
  /\ returnsOneOnError url_Parse m "/self/service" Service.zero
                       (GetSelfService url_Parse m)
  /\ returnsOneOnError url_Parse m "/self/stack" zeroStack
                       (GetSelfStack url_Parse m)
  /\ (forall name,
        returnsOneOnError url_Parse m ("/self/stack/services/" ++ name)
                          Service.zero (GetSelfServiceByName url_Parse m name))
  /\ (forall name,
        returnsOneOnError url_Parse m ("/stacks/" ++ name) zeroStack
                          (GetStackByName url_Parse m name))
  /\ (forall stackName svcName,
        returnsOneOnError url_Parse m
                          ((("/stacks/" ++ stackName) ++ "/services/") ++ svcName)
                          Service.zero
                          (GetServiceByName url_Parse m stackName svcName)).
Proof.
  repeat split.
  all: try (intros e Hsend;
            unfold GetSelfHost, GetSelfContainer, GetSelfService, GetSelfStack,
                   GetSelfServiceByName, GetStackByName, GetServiceByName, bind;
            now rewrite Hsend).
  all: intros v e Hsend Hjson;
       unfold GetSelfHost, GetSelfContainer, GetSelfService, GetSelfStack,
              GetSelfServiceByName, GetStackByName, GetServiceByName, bind;
       rewrite Hsend; cbn; rewrite Hjson; now destruct e.
Qed.

Lemma SendRequest_unparsable (m : client W) (path : string) (w : W) :
  (forall p, url_Parse (url m ++ p) <> None) ->
  SendRequest url_Parse m path w = (Panics, w).
Proof.
  intros Hbad. destruct (url_Parse (url m ++ path)) as [e0|] eqn:Hurl.
  - exact (SendRequest_not_constructed url_Parse m path w Hurl).
  - now apply Hbad in Hurl.
Qed.

(** X15: with a base URL under which no request URL parses, the accessors
    panic on the nil request instead of returning an error, and nothing is
    exchanged with the service. *)
Theorem unparsable_url_panics (m : client W) (w : W) :
  (forall p, url_Parse (url m ++ p) <> None) ->
  GetVersion url_Parse m w = (Panics, w)
  /\ GetRegionName url_Parse m w = (Panics, w)
  /\ GetSelfHost url_Parse m w = (Panics, w)
  /\ (forall stackName svcName,
        GetServiceByName url_Parse m stackName svcName w = (Panics, w))
  /\ (forall regionName envName stackName svcName,
        GetServiceByRegionEnvironment url_Parse m regionName envName
                                      stackName svcName w = (Panics, w))
  /\ (forall envName stackName svcName,
        GetServiceByEnvironment url_Parse m envName stackName svcName w
        = (Panics, w))
  /\ (forall serviceName stackName,
        GetServiceContainers url_Parse m serviceName stackName w = (Panics, w))
  /\ (forall UUID, GetHost url_Parse m UUID w = (Panics, w)).
Proof.
  intros Hbad.
  repeat split; intros;
    unfold GetVersion, GetRegionName, GetSelfHost, GetServiceByName,
           GetServiceByRegionEnvironment, GetServiceByEnvironment,
           GetServiceContainers, GetHost, GetRegionName, GetContainers,
           GetHosts, bind;
    now rewrite (SendRequest_unparsable m _ w Hbad).
Qed.

(** X16: the by-name accessors splice the names into the path as they are:
    [GetServiceByName] for a stack and a service sends the very request
    [GetStackByName] sends for the name made of the stack, [/services/] and
    the service. *)
Theorem by_name_paths_unescaped (m : client W) (stackName svcName : string)
  (log : list Request) (w : W) :
  url_Parse (url m ++ "/stacks/" ++ stackName ++ "/services/" ++ svcName)
  = None ->
  fst (snd (GetServiceByName url_Parse (logged m) stackName svcName (log, w)))
  = (log ++ [requestFor m ("/stacks/" ++ stackName ++ "/services/" ++ svcName)])%list
  /\ fst (snd (GetStackByName url_Parse (logged m)
                              (stackName ++ "/services/" ++ svcName) (log, w)))
     = fst (snd (GetServiceByName url_Parse (logged m) stackName svcName
                                  (log, w))).
Proof.
  intros Hurl.
  assert (Hpath : (("/stacks/" ++ stackName) ++ "/services/") ++ svcName
                  = "/stacks/" ++ stackName ++ "/services/" ++ svcName)
    by now rewrite !append_assoc.
  assert (Hservice :
            fst (snd (GetServiceByName url_Parse (logged m) stackName svcName
                                       (log, w)))
            = (log ++ [requestFor m ("/stacks/" ++ stackName ++ "/services/"
                                                ++ svcName)])%list).
  { unfold GetServiceByName, bind. rewrite Hpath.
    rewrite (@SendRequest_logged_constructed _ url_Parse m _ log w Hurl).
    destruct (SendRequest url_Parse m _ w) as [[[resp [e|]]|] w1];
      simpl; try reflexivity.
    now destruct (Unmarshal _ _) as [v [e|]]. }
  split; [exact Hservice|]. rewrite Hservice.
  unfold GetStackByName, bind.
  assert (Hurl' : url_Parse (url m ++ "/stacks/" ++ (stackName ++ "/services/" ++ svcName)) = None)
    by exact Hurl.
  rewrite (@SendRequest_logged_constructed _ url_Parse m _ log w Hurl').
  destruct (SendRequest url_Parse m _ w) as [[[resp [e|]]|] w1];
    simpl; try reflexivity.
  now destruct (Unmarshal _ _) as [v [e|]].
Qed.

End Requests.

(** ** The further properties at work on the scripted service *)

Lemma SendRequest_body_xor_error_witness :
  (Some (list_ascii_of_string "<hosts>") = None /\ (None : option error) <> None)
  \/ (Some (list_ascii_of_string "<hosts>") <> None
      /\ (None : option error) = None).
Proof.
  exact (@SendRequest_body_xor_error
           script parses scriptedClient "/hosts" [answer 200 "<hosts>"] []
           (Some (list_ascii_of_string "<hosts>")) None eq_refl).
Defined.

Lemma SendRequest_one_exchange_witness :
  SendRequest parses (logged scriptedClient) "/hosts"
    ([], [answer 200 "<hosts>"])
  = (Returns (Some (list_ascii_of_string "<hosts>"), None),
     ([requestFor scriptedClient "/hosts"], []))
  /\ SendRequest parsesNot (logged scriptedClient) "/hosts"
       ([], [answer 200 "<hosts>"])
     = (Panics, ([], [answer 200 "<hosts>"])).
Proof.
  split.
  - exact (proj1 (@SendRequest_one_exchange
                    script parses scriptedClient "/hosts" []
                    [answer 200 "<hosts>"]) eq_refl).
  - exact (proj2 (@SendRequest_one_exchange
                    script parsesNot scriptedClient "/hosts" []
                    [answer 200 "<hosts>"]) (mkError "invalid URL") eq_refl).
Defined.

Lemma NewClient_request_witness :
  fst (snd (SendRequest parses
              (logged (NewClient scripted "http://rancher-metadata/latest"))
              "/hosts" ([], [])))
  = [mkRequest "GET" "http://rancher-metadata/latest/hosts"
               [("Accept", "application/json")]]
  /\ fst (snd (SendRequest parses
                 (logged (newClient scripted "http://rancher-metadata/latest"
                                    "10.42.0.7"))
                 "/hosts" ([], [])))
     = [mkRequest "GET" "http://rancher-metadata/latest/hosts"
                  [("Accept", "application/json");
                   ("X-Forwarded-For", "10.42.0.7")]].
Proof.
  pose proof (@NewClient_request
                script parses scripted "http://rancher-metadata/latest"
                "10.42.0.7" "/hosts" [] [] eq_refl) as [Hplain Hip].
  split.
  - exact (f_equal fst Hplain).
  - refine (f_equal fst (Hip _)). discriminate.
Defined.

Lemma GetVersion_verbatim_witness :
  GetVersion parses scriptedClient [answer 200 " v1 "]
  = (Returns (" v1 ", None), []).
Proof.
  exact (proj1 (@GetVersion_verbatim
                  script parses scriptedClient [answer 200 " v1 "] [])
               " v1 " eq_refl eq_refl).
Defined.

Lemma GetRegionName_unquoted_witness :
  GetRegionName parses scriptedClient [answer 200 (quote ++ "us" ++ quote)]
  = (Returns ("us", None), [])
  /\ GetRegionName parses scriptedClient [answer 200 "us"]
     = (Returns ("us", None), []).
Proof.
  split.
  - exact (proj1 (@GetRegionName_unquoted
                    script parses scriptedClient "us"
                    [answer 200 (quote ++ "us" ++ quote)] [] eq_refl) eq_refl).
  - exact (proj2 (@GetRegionName_unquoted
                    script parses scriptedClient "us"
                    [answer 200 "us"] [] eq_refl) eq_refl eq_refl eq_refl).
Defined.

Lemma GetHost_first_match_witness :
  exists pre post,
    [hostB; hostA; hostA'] = (pre ++ hostA :: post)%list
    /\ Host.UUID hostA = "uuid-a"
    /\ forall h, In h pre -> Host.UUID h <> "uuid-a".
Proof.
  exact (@GetHost_first_match
           script parses (decodesTo (Some [hostB; hostA; hostA']))
           scriptedClient "uuid-a" [answer 200 "<hosts>"] []
           (Some [hostB; hostA; hostA']) hostA eq_refl eq_refl).
Defined.

Lemma cascade_zero_with_error_witness :
  exists host e,
    GetHost (json_hosts := decodesPartly (Some [hostA]) typeError)
      parses scriptedClient "uuid-a" [answer 200 "<hosts>"]
    = (Returns (host, Some e), [])
    /\ host = Host.zero.
Proof.
  exists Host.zero, typeError. split; [reflexivity|].
  exact (proj1 (@cascade_zero_with_error
                  script parses (decodesTo someEnvironments)
                  (decodesPartly (Some [hostA]) typeError) scriptedClient)
               "uuid-a" [answer 200 "<hosts>"] [] Host.zero typeError eq_refl).
Defined.

Lemma GetServiceByRegionEnvironment_sound_witness :
  exists svc,
    GetServiceByRegionEnvironment
      (json_environments := decodesTo someEnvironments)
      parses scriptedClient "us" "prod" "app" "web"
      [answer 200 "<environments>"]
    = (Returns (svc, None), [])
    /\ ((exists env,
           In env (elems someEnvironments)
           /\ environmentMatches "us" "prod" env = true
           /\ In svc (servicesOf env)
           /\ Service.StackName svc = "app"
           /\ Service.Name svc = "web")
        \/ (svc = Service.zero
            /\ forall env s,
                 In env (elems someEnvironments) ->
                 environmentMatches "us" "prod" env = true ->
                 In s (servicesOf env) ->
                 serviceMatches "app" "web" s = false)).
Proof.
  exact (@GetServiceByRegionEnvironment_sound
           script parses (decodesTo someEnvironments) scriptedClient
           "us" "prod" "app" "web" [answer 200 "<environments>"] []
           (Some (list_ascii_of_string "<environments>")) someEnvironments
           eq_refl eq_refl).
Defined.

Lemma GetServicesByRegionEnvironment_members_witness :
  exists services,
    GetServicesByRegionEnvironment
      (json_environments := decodesTo someEnvironments)
      parses scriptedClient "eu" "prod" [answer 200 "<environments>"]
    = (Returns (services, None), [])
    /\ (services = None
        <-> forall env,
              In env (elems someEnvironments) ->
              environmentMatches "eu" "prod" env = true ->
              servicesOf env = [])
    /\ (forall svc,
          In svc (elems services)
          <-> exists env,
                In env (elems someEnvironments)
                /\ environmentMatches "eu" "prod" env = true
                /\ In svc (servicesOf env)).
Proof.
  exact (@GetServicesByRegionEnvironment_members
           script parses (decodesTo someEnvironments) scriptedClient
           "eu" "prod" [answer 200 "<environments>"] []
           (Some (list_ascii_of_string "<environments>")) someEnvironments
           eq_refl eq_refl).
Defined.

Lemma GetService_among_GetServices_witness :
  exists services,
    GetServicesByRegionEnvironment
      (json_environments := decodesTo someEnvironments)
      parses scriptedClient "us" "prod" [answer 200 "<environments>"]
    = (Returns (services, None), [])
    /\ GetServiceByRegionEnvironment
         (json_environments := decodesTo someEnvironments)
         parses scriptedClient "us" "prod" "app" "web"
         [answer 200 "<environments>"]
       = (Returns (match find (serviceMatches "app" "web") (elems services) with
                   | Some svc => svc
                   | None => Service.zero
                   end, None), []).
Proof.
  exact (@GetService_among_GetServices
           script parses (decodesTo someEnvironments) scriptedClient
           "us" "prod" "app" "web" [answer 200 "<environments>"] []
           (Some (list_ascii_of_string "<environments>")) someEnvironments
           eq_refl eq_refl).
Defined.

Lemma cascade_one_request_witness :
  GetHost (json_hosts := decodesTo someHosts) parses (logged scriptedClient)
    "uuid-c" ([], [answer 200 "<hosts>"; answer 200 "<hosts>"])
  = (Returns (Host.zero, Some (mkError "could not find host by UUID uuid-c")),
     ([requestFor scriptedClient "/hosts"], [answer 200 "<hosts>"])).
Proof.
  exact (proj1 (@cascade_one_request
                  script parses (decodesTo someEnvironments)
                  (decodesTo someContainers) (decodesTo someHosts)
                  scriptedClient [] [answer 200 "<hosts>"; answer 200 "<hosts>"])
               eq_refl "uuid-c").
Defined.

Lemma ByEnvironment_requests_witness :
  GetServiceByEnvironment (json_environments := decodesTo someEnvironments)
    parses (logged scriptedClient) "prod" "app" "web"
    ([], [answer 500 "down"; answer 200 "<environments>"])
  = (Returns (Service.zero,
              Some (mkError "Error 500 accessing /region_name path")),
     ([requestFor scriptedClient "/region_name"],
      [answer 200 "<environments>"]))
  /\ GetServiceByEnvironment (json_environments := decodesTo someEnvironments)
       parses (logged scriptedClient) "prod" "app" "web"
       ([], [answer 200 "us"; answer 200 "<environments>"])
     = (Returns (web, None),
        ([requestFor scriptedClient "/region_name";
          requestFor scriptedClient "/environments"], [])).
Proof.
  split.
  - exact (proj1 (@ByEnvironment_requests
                    script parses (decodesTo someEnvironments) scriptedClient
                    [] [answer 500 "down"; answer 200 "<environments>"]
                    eq_refl eq_refl)
                 "prod" "app" "web").
  - exact (proj1 (@ByEnvironment_requests
                    script parses (decodesTo someEnvironments) scriptedClient
                    [] [answer 200 "us"; answer 200 "<environments>"]
                    eq_refl eq_refl)
                 "prod" "app" "web").
Defined.

Lemma single_entity_results_witness :
  GetSelfHost (json_host := decodesTo hostA) parses scriptedClient
    [answer 503 "down"]
  = (Returns (Host.zero, Some (mkError "Error 503 accessing /self/host path")),
     [])
  /\ GetServiceByName (json_service := decodesPartly web typeError)
       parses scriptedClient "app" "web" [answer 200 "<service>"]
     = (Returns (web, Some typeError), []).
Proof.
  pose proof (@single_entity_results
                script parses (decodesTo hostA) (decodesTo web1)
                (decodesPartly web typeError) (decodesTo (Stack.mk "app" []))
                scriptedClient)
    as (Hhost & _ & _ & _ & _ & _ & Hservice).
  split.
  - exact (proj1 (Hhost [answer 503 "down"] [] None) _ eq_refl).
  - exact (proj2 (Hservice "app" "web" [answer 200 "<service>"] []
                           (Some (list_ascii_of_string "<service>")))
                 web (Some typeError) eq_refl eq_refl).
Defined.

Lemma unparsable_url_panics_witness :
  GetVersion parsesNot scriptedClient [answer 200 "v1"]
  = (Panics, [answer 200 "v1"])
  /\ GetHost (json_hosts := decodesTo someHosts) parsesNot scriptedClient
       "uuid-a" [answer 200 "v1"]
     = (Panics, [answer 200 "v1"]).
Proof.
  pose proof (@unparsable_url_panics
                script parsesNot (decodesTo someEnvironments)
                (decodesTo someContainers) (decodesTo someHosts)
                (decodesTo hostA) (decodesTo web) scriptedClient
                [answer 200 "v1"])
    as Hpanics.
  assert (Hbad : forall p, parsesNot (url scriptedClient ++ p) <> None)
    by (intros p; discriminate).
  destruct (Hpanics Hbad) as (Hversion & _ & _ & _ & _ & _ & _ & Hhost).
  split; [exact Hversion | exact (Hhost "uuid-a")].
Defined.

Lemma by_name_paths_unescaped_witness :
  fst (snd (GetServiceByName (json_service := decodesTo web)
              parses (logged scriptedClient) "app" "web"
              ([], [answer 200 "<service>"])))
  = [requestFor scriptedClient "/stacks/app/services/web"]
  /\ fst (snd (GetStackByName (json_stack := decodesTo (Stack.mk "app" []))
                 parses (logged scriptedClient) "app/services/web"
                 ([], [answer 200 "<service>"])))
     = fst (snd (GetServiceByName (json_service := decodesTo web)
                   parses (logged scriptedClient) "app" "web"
                   ([], [answer 200 "<service>"]))).
Proof.
  exact (@by_name_paths_unescaped
           script parses (decodesTo web) (decodesTo (Stack.mk "app" []))
           scriptedClient "app" "web" [] [answer 200 "<service>"] eq_refl).
Defined.
